(** * grafica: upload validation, daily re-indexing and chart bookkeeping

    A shallow embedding of [grafica.py], a FastAPI service with two handlers:
    [generate_graphs] reads an uploaded CSV file with pandas, checks its
    columns, draws three charts with matplotlib and fits two statsmodels
    forecasters; [download_graph] serves a chart file by name.

    The repository's own code is the orchestration.  pandas, matplotlib and
    statsmodels are external: what the handler relies on of them is modelled
    here from their documented behaviour ([groupby(...).sum()], [asfreq],
    [os.path.join]) or taken as a parameter (CSV reading, date parsing, chart
    rendering, model fitting; see [Libs]).

    Scope of the data model: the quantity column is an int64 column, and a
    timestamp is a number of nanoseconds since the epoch (pandas'
    datetime64[ns]), or NaT. *)

From Stdlib Require Import ZArith String Ascii List Lia.
From stdpp Require Import gmap strings list fin_maps sorting.

Local Open Scope string_scope.
Local Open Scope Z_scope.

(** ** int64 arithmetic *)

Module Int64.

(** A value of an int64 column after an overflowing operation: two's
    complement wrap-around into [-2^63, 2^63). *)
Definition wrap (z : Z) : Z := (z + 2 ^ 63) `mod` 2 ^ 64 - 2 ^ 63.

Definition add (a b : Z) : Z := wrap (a + b).

(** [Series.sum()] of an int64 column. *)
Definition sum (l : list Z) : Z := foldl add 0 l.

Definition in_range (z : Z) : Prop := - 2 ^ 63 ≤ z < 2 ^ 63.

End Int64.

(** ** Cells, rows and frames *)

(** A cell of the category column: a missing value, a text or a number. *)
Inductive label : Type :=
  | LNaN
  | LStr (s : string)
  | LInt (n : Z).

Global Instance label_eq_dec : EqDecision label.
Proof. solve_decision. Defined.

Definition label_to_sum (l : label) : unit + (string + Z) :=
  match l with
  | LNaN => inl tt
  | LStr s => inr (inl s)
  | LInt n => inr (inr n)
  end.

Definition label_of_sum (x : unit + (string + Z)) : label :=
  match x with
  | inl _ => LNaN
  | inr (inl s) => LStr s
  | inr (inr n) => LInt n
  end.

Global Instance label_countable : Countable label.
Proof.
  apply (inj_countable' label_to_sum label_of_sum).
  intros []; reflexivity.
Defined.

(** A value of a datetime64[ns] index: nanoseconds since 1970-01-01, or NaT. *)
Inductive Timestamp : Type :=
  | NaT
  | Ts (ns : Z).

Global Instance Timestamp_eq_dec : EqDecision Timestamp.
Proof. solve_decision. Defined.

(** One day, the step of the frequency ['D']. *)
Definition day_ns : Z := 86400000000000.

(** A timestamp that is a calendar date (midnight). *)
Definition is_date (t : Z) : Prop := t `mod` day_ns = 0.

(** A row as [read_csv] returns it, restricted to the three columns the
    handler reads: the raw text of the date cell ([None]: an empty cell), the
    category and the quantity. *)
Record Row : Type := mkRow {
  Fecha : option string;
  Tipo_de_Alimento : label;
  Cantidad_Consumida : Z
}.

(** The parsed upload: its column names and its rows. *)
Record DataFrame : Type := mkDataFrame {
  columns : list string;
  rows : list Row
}.

(** A frame indexed by timestamp; [A] is the rest of the row. *)
Definition Frame (A : Type) : Type := list (Timestamp * A).

Definition Series : Type := Frame Z.

Definition index {A} (obj : Frame A) : list Timestamp := obj.*1.

Definition values {A} (obj : Frame A) : list A := obj.*2.

(** What the library calls of the handler can raise. *)
Inductive failure : Type :=
  | DateParseError              (* pd.to_datetime: a value does not parse *)
  | NaTRangeError               (* date_range: neither start nor end can be NaT *)
  | DuplicateLabelsError        (* reindex: cannot reindex on an axis with duplicate labels *)
  | PlotError (chart : string)  (* matplotlib: drawing or saving a figure *)
  | FitError (model : string).  (* statsmodels: fitting or forecasting *)

(** ** The series builder *)

(** [pd.to_datetime(data['Fecha'])] with the default [errors='raise']: an
    empty cell becomes NaT, a text is parsed, and one text that does not
    parse fails the whole conversion. *)
Definition to_datetime (parse : string → option Timestamp)
    (cells : list (option string)) : failure + list Timestamp :=
  match mapM (λ c, match c with None => Some NaT | Some s => parse s end) cells with
  | Some ts => inr ts
  | None => inl DateParseError
  end.

(** [data.set_index('Fecha')]: the converted dates become the index. *)
Definition set_index (ts : list Timestamp) (rs : list Row) : Frame (label * Z) :=
  zip ts ((λ r, (Tipo_de_Alimento r, Cantidad_Consumida r)) <$> rs).

(** One step of [groupby(key).sum()]: rows whose key is missing are dropped
    (pandas' default [dropna=True]); the others add to their group's total. *)
Definition group_add (acc : gmap label Z) (kq : label * Z) : gmap label Z :=
  match kq.1 with
  | LNaN => acc
  | k => <[k := Int64.add (default 0 (acc !! k)) kq.2]> acc
  end.

Definition groupby_sum (kqs : list (label * Z)) : gmap label Z :=
  foldl group_add ∅ kqs.

(** [data.groupby('Tipo de Alimento')['Cantidad Consumida (gr)'].sum()] *)
Definition tipo_alimento_totales (data : Frame (label * Z)) : gmap label Z :=
  groupby_sum (values data).

(** The sum of a series of totals keyed by category. *)
Definition totals_sum (m : gmap label Z) : Z :=
  map_fold (λ _ v acc, Int64.add v acc) 0 m.

(** The timestamps of an index that are not NaT. *)
Definition valid (idx : list Timestamp) : list Z :=
  omap (λ t, match t with NaT => None | Ts ns => Some ns end) idx.

(** [Index.min()] and [Index.max()], which skip NaT; [None] is NaT. *)
Definition index_min (idx : list Timestamp) : option Z :=
  match valid idx with
  | [] => None
  | t :: ts => Some (foldr Z.min t ts)
  end.

Definition index_max (idx : list Timestamp) : option Z :=
  match valid idx with
  | [] => None
  | t :: ts => Some (foldr Z.max t ts)
  end.

(** [date_range(start, end, freq='D')]: start, start + 1 day, ... up to the
    last one not after end. *)
Definition date_range (start stop : Z) : list Z :=
  (λ k, start + k * day_ns) <$> seqZ 0 ((stop - start) `div` day_ns + 1).

(** The row of a label in a frame whose index has no duplicate. *)
Fixpoint loc {A} (t : Timestamp) (obj : Frame A) : option A :=
  match obj with
  | [] => None
  | (i, a) :: rest => if decide (i = t) then Some a else loc t rest
  end.

(** [obj.reindex(target, fill_value=fill)] for a target without duplicates:
    refused when the frame's own index has a duplicate; otherwise one row
    per target label, the frame's row where it has one and [fill] elsewhere
    (rows whose label is not in the target are dropped). *)
Definition reindexed {A} (fill : A) (target : list Z) (obj : Frame A) : Frame A :=
  (λ t, (Ts t, default fill (loc (Ts t) obj))) <$> target.

Definition reindex {A} (fill : A) (target : list Z) (obj : Frame A) : failure + Frame A :=
  if decide (NoDup (index obj))
  then inr (reindexed fill target obj)
  else inl DuplicateLabelsError.

(** [obj.asfreq('D', fill_value=fill)] (pandas.core.resample.asfreq): an
    empty frame is returned as it is; otherwise the frame is re-indexed on
    the daily range from its smallest to its largest timestamp. *)
Definition asfreq {A} (fill : A) (obj : Frame A) : failure + Frame A :=
  match obj with
  | [] => inr []
  | _ :: _ =>
      match index_min (index obj), index_max (index obj) with
      | Some lo, Some hi => reindex fill (date_range lo hi) obj
      | _, _ => inl NaTRangeError
      end
  end.

(** [fill_value=0] fills every column of a new row, the category too. *)
Definition fill_row : label * Z := (LInt 0, 0).

(** [data['Cantidad Consumida (gr)']] of the re-indexed frame. *)
Definition daily_consumption (data : Frame (label * Z)) : Series :=
  (λ r, (r.1, r.2.2)) <$> data.

(** ** Exact sums

    The sums without overflow, to which the int64 sums are compared. *)

Definition Zsum (l : list Z) : Z := foldr Z.add 0 l.

Definition msum (m : gmap label Z) : Z := map_fold (λ _ v acc, v + acc) 0 m.

(** The quantities [groupby] adds up: those of the rows that have a key. *)
Definition keyed (kqs : list (label * Z)) : list Z :=
  omap (λ kq, match kq.1 with LNaN => None | _ => Some kq.2 end) kqs.

(** ** The forecasters *)

(** The last label of an index, when it is a timestamp. *)
Definition last_index {A} (obj : Frame A) : option Z :=
  match last (index obj) with
  | Some (Ts t) => Some t
  | _ => None
  end.

(** [fit.get_forecast(steps).predicted_mean] and [fit.forecast(steps)] of a
    model fitted on a daily series: the value the model predicts at each
    horizon 1..steps, indexed by the days that follow the last observed one. *)
Definition forecast {float} (model_name : string) (predict : nat → float)
    (endog : Series) (steps : nat) : failure + Frame float :=
  match last_index endog with
  | Some t => inr ((λ h, (Ts (t + Z.of_nat h * day_ns), predict h)) <$> seq 1 steps)
  | None => inl (FitError model_name)
  end.

(** ** Paths *)

(** [s.startswith(prefix)] and [s.endswith(suffix)] *)
Definition startswith (s pre : string) : bool :=
  bool_decide (list_ascii_of_string pre `prefix_of` list_ascii_of_string s).

Definition endswith (s suf : string) : bool :=
  bool_decide (list_ascii_of_string suf `suffix_of` list_ascii_of_string s).

(** [os.path.join(a, b)] (posixpath): an absolute [b] replaces [a]. *)
Definition path_join (a b : string) : string :=
  if startswith b "/" then b
  else if bool_decide (a = "") || endswith a "/" then a +:+ b
  else a +:+ "/" +:+ b.

Definition GRAPH_PATH : string := "./generated_graphs".

Definition pie_path : string := path_join GRAPH_PATH "grafica_pastel.png".
Definition line_path : string := path_join GRAPH_PATH "grafica_linea.png".
Definition pred_path : string := path_join GRAPH_PATH "grafica_predicciones.png".

(** ** The request handlers *)

Definition bytes : Type := list Byte.byte.

(** The [detail] of an [HTTPException]; the text of each is fixed by the
    handler, up to the value it interpolates. *)
Inductive detail : Type :=
  | DetailNotCsv                          (* "El archivo debe ser un CSV." *)
  | DetailReadError (e : string)          (* "Error al leer el archivo: {e}" *)
  | DetailColumns (names : gset string)   (* "El archivo debe contener las columnas: {names}" *)
  | DetailNotFound.                       (* "Grafica no encontrada." *)

(** How a request ends when it does not return: an [HTTPException] the
    handler raises, answered with its status code, or any other exception,
    which the framework answers with a server error (500). *)
Inductive exn : Type :=
  | HTTPException (status_code : Z) (d : detail)
  | Unhandled (f : failure).

Definition status_of (e : exn) : Z :=
  match e with
  | HTTPException code _ => code
  | Unhandled _ => 500
  end.

Definition is_client_error (e : exn) : Prop := 400 ≤ status_of e < 500.

(** The column names an error message lists. *)
Definition names_listed (e : exn) : gset string :=
  match e with
  | HTTPException _ (DetailColumns names) => names
  | _ => ∅
  end.

(** What a request does to the outside, in order (newest first in [log]). *)
Inductive event : Type :=
  | EvReadCsv (content : string)
  | EvSavefig (path : string) (png : bytes).

(** The files under the working directory, keyed by the path string they
    are opened with (directories and other spellings of one location are not
    modelled), and the log of what the handlers did. *)
Record World : Type := mkWorld {
  files : gmap string bytes;
  log : list event
}.

(** The world after an event that writes nothing, and after a file is written. *)
Definition record (e : event) (w : World) : World :=
  mkWorld (files w) (e :: log w).

Definition write_file (path : string) (png : bytes) (w : World) : World :=
  mkWorld (<[path := png]> (files w)) (EvSavefig path png :: log w).

Definition M (A : Type) : Type := World → (exn + A) * World.

Definition ret {A} (a : A) : M A := λ w, (inr a, w).

Definition raise {A} (e : exn) : M A := λ w, (inl e, w).

Definition bind {A B} (m : M A) (k : A → M B) : M B :=
  λ w, match m w with
       | (inl e, w') => (inl e, w')
       | (inr a, w') => k a w'
       end.

Notation "x <<- m ; k" := (bind m (λ x, k))
  (at level 20, m at level 100, k at level 200, only parsing).

(** A library call that raises is not caught. *)
Definition lift {A} (r : failure + A) : M A :=
  match r with
  | inl f => raise (Unhandled f)
  | inr a => ret a
  end.

(** [plt.savefig(path)] of a drawn figure; [None]: drawing or saving raised. *)
Definition savefig (path chart : string) (png : option bytes) : M unit :=
  match png with
  | None => raise (Unhandled (PlotError chart))
  | Some b => λ w, (inr tt, write_file path b w)
  end.

Record UploadFile : Type := mkUploadFile {
  filename : string;
  file : string
}.

Record Response : Type := mkResponse {
  pie_chart : string;
  line_chart : string;
  prediction_chart : string
}.

Definition required_columns : gset string :=
  {[ "Fecha"; "Tipo de Alimento"; "Cantidad Consumida (gr)" ]}.

(** [required_columns.issubset(data.columns)] *)
Definition issubset (s : gset string) (cols : list string) : bool :=
  bool_decide (s ⊆ list_to_set cols).

(** The required columns an upload lacks. *)
Definition missing_columns (data : DataFrame) : gset string :=
  required_columns ∖ list_to_set (columns data).

(** The external libraries, as far as the handler calls them.  [float] is
    the type of a predicted value. *)
Record Libs (float : Type) : Type := mkLibs {
  (* pd.read_csv(file.file); [inl e]: raises e *)
  read_csv : string → string + DataFrame;
  (* the parser pd.to_datetime applies to a text *)
  parse_datetime : string → option Timestamp;
  (* plt.pie ... plt.savefig: the PNG, or None when drawing or saving raises *)
  plot_pie : gmap label Z → option bytes;
  plot_line : Series → option bytes;
  plot_pred : Series → Frame float → Frame float → option bytes;
  (* SARIMAX(..., order=(1,1,1), seasonal_order=(1,1,0,7)).fit(disp=False):
     the fitted model's mean prediction per horizon *)
  SARIMAX_fit : Series → option (nat → float);
  (* ExponentialSmoothing(..., trend='add', seasonal='add', seasonal_periods=7).fit() *)
  ExponentialSmoothing_fit : Series → option (nat → float)
}.

Arguments read_csv {float}.
Arguments parse_datetime {float}.
Arguments plot_pie {float}.
Arguments plot_line {float}.
Arguments plot_pred {float}.
Arguments SARIMAX_fit {float}.
Arguments ExponentialSmoothing_fit {float}.

Section Handlers.

Context {float : Type} (L : Libs float).

(** The [try: pd.read_csv ... except Exception] block. *)
Definition try_read_csv (content : string) : M DataFrame :=
  λ w, let w' := record (EvReadCsv content) w in
       match read_csv L content with
       | inl e => (inl (HTTPException 400 (DetailReadError e)), w')
       | inr data => (inr data, w')
       end.

(** The conversion and indexing of the date column. *)
Definition index_by_date (data : DataFrame) : failure + Frame (label * Z) :=
  match to_datetime (parse_datetime L) (Fecha <$> rows data) with
  | inl f => inl f
  | inr ts => inr (set_index ts (rows data))
  end.

Definition sarima_forecast (daily : Series) : failure + Frame float :=
  match SARIMAX_fit L daily with
  | Some predict => forecast "SARIMAX" predict daily 30
  | None => inl (FitError "SARIMAX")
  end.

Definition holt_forecast (daily : Series) : failure + Frame float :=
  match ExponentialSmoothing_fit L daily with
  | Some predict => forecast "ExponentialSmoothing" predict daily 30
  | None => inl (FitError "ExponentialSmoothing")
  end.

Definition generate_graphs (upload : UploadFile) : M Response :=
  if negb (endswith (filename upload) ".csv")
  then raise (HTTPException 400 DetailNotCsv)
  else
    data <<- try_read_csv (file upload);
    if negb (issubset required_columns (columns data))
    then raise (HTTPException 400 (DetailColumns required_columns))
    else
      data <<- lift (index_by_date data);
      let totals := tipo_alimento_totales data in
      _ <<- savefig pie_path "pie" (plot_pie L totals);
      data <<- lift (asfreq fill_row data);
      let daily := daily_consumption data in
      _ <<- savefig line_path "line" (plot_line L daily);
      sarima <<- lift (sarima_forecast daily);
      holt <<- lift (holt_forecast daily);
      _ <<- savefig pred_path "predictions" (plot_pred L daily sarima holt);
      ret {| pie_chart := pie_path;
             line_chart := line_path;
             prediction_chart := pred_path |}.

End Handlers.

(** [download_graph]: a missing path is a 404; otherwise the file is sent. *)
Definition download_graph (name : string) : M bytes :=
  let filepath := path_join GRAPH_PATH name in
  λ w, match files w !! filepath with
       | None => (inl (HTTPException 404 DetailNotFound), w)
       | Some content => (inr content, w)
       end.

(** ** Outcomes of a request

    How far [generate_graphs] gets, and the world it leaves at each point. *)

(** The steps after the column check that have written a file. *)
Inductive progress : Type :=
  | AtRead
  | AtPie (pie : bytes)
  | AtLine (pie line : bytes).

Definition world_at (up : UploadFile) (w : World) (p : progress) : World :=
  match p with
  | AtRead => record (EvReadCsv (file up)) w
  | AtPie pie => write_file pie_path pie (record (EvReadCsv (file up)) w)
  | AtLine pie line =>
      write_file line_path line
        (write_file pie_path pie (record (EvReadCsv (file up)) w))
  end.

(** The answers of [generate_graphs] and the world each leaves. *)
Inductive run_of {float} (L : Libs float) (up : UploadFile) (w : World) :
    exn + Response → World → Prop :=
  | RunNotCsv :
      endswith (filename up) ".csv" = false →
      run_of L up w (inl (HTTPException 400 DetailNotCsv)) w
  | RunReadError (e : string) :
      endswith (filename up) ".csv" = true →
      read_csv L (file up) = inl e →
      run_of L up w (inl (HTTPException 400 (DetailReadError e)))
        (record (EvReadCsv (file up)) w)
  | RunColumns (data : DataFrame) :
      endswith (filename up) ".csv" = true →
      read_csv L (file up) = inr data →
      issubset required_columns (columns data) = false →
      run_of L up w (inl (HTTPException 400 (DetailColumns required_columns)))
        (record (EvReadCsv (file up)) w)
  | RunUnhandled (data : DataFrame) (f : failure) (p : progress) :
      endswith (filename up) ".csv" = true →
      read_csv L (file up) = inr data →
      issubset required_columns (columns data) = true →
      run_of L up w (inl (Unhandled f)) (world_at up w p)
  | RunResponse (data : DataFrame) (pie line pred : bytes) :
      endswith (filename up) ".csv" = true →
      read_csv L (file up) = inr data →
      issubset required_columns (columns data) = true →
      run_of L up w
        (inr {| pie_chart := pie_path; line_chart := line_path;
                prediction_chart := pred_path |})
        (write_file pred_path pred (world_at up w (AtLine pie line))).


(** The quantities of the rows of one category, in row order. *)
Definition quantities_of (k : label) (kqs : list (label * Z)) : list Z :=
  snd <$> filter (λ kq, kq.1 = k) kqs.

(** ** An instance of the libraries for running the handlers

    A small reader for comma-separated text without quoting, an ISO
    [YYYY-MM-DD] date parser, and stand-ins for the renderers and the
    forecasters.  The theorems below hold for every [Libs]; this instance
    runs the handlers on concrete uploads. *)

Module Demo.

(** The pieces of [s] between occurrences of [sep]. *)
Fixpoint split_on (sep : ascii) (s : string) : list string :=
  match s with
  | EmptyString => [EmptyString]
  | String c rest =>
      if Ascii.eqb c sep then EmptyString :: split_on sep rest
      else match split_on sep rest with
           | [] => [String c EmptyString]
           | w :: ws => String c w :: ws
           end
  end.

Definition digit (c : ascii) : option Z :=
  let n := Z.of_nat (nat_of_ascii c) in
  if (48 <=? n) && (n <=? 57) then Some (n - 48) else None.

Fixpoint digits (acc : Z) (s : string) : option Z :=
  match s with
  | EmptyString => Some acc
  | String c rest =>
      match digit c with
      | Some d => digits (10 * acc + d) rest
      | None => None
      end
  end.

Definition parse_nat (s : string) : option Z :=
  match s with
  | EmptyString => None
  | _ => digits 0 s
  end.

Definition parse_int (s : string) : option Z :=
  match s with
  | String "-" rest => Z.opp <$> parse_nat rest
  | _ => parse_nat s
  end.

Definition is_leap (y : Z) : bool :=
  (y `mod` 4 =? 0) && (negb (y `mod` 100 =? 0) || (y `mod` 400 =? 0)).

Definition days_in_month (y m : Z) : Z :=
  if m =? 2 then (if is_leap y then 29 else 28)
  else if (m =? 4) || (m =? 6) || (m =? 9) || (m =? 11) then 30
  else 31.

(** Days from 1970-01-01 to the civil date y-m-d (proleptic Gregorian). *)
Definition days_from_civil (y m d : Z) : Z :=
  let y' := if m <=? 2 then y - 1 else y in
  let era := y' `div` 400 in
  let yoe := y' - era * 400 in
  let doy := (153 * (if 2 <? m then m - 3 else m + 9) + 2) `div` 5 + d - 1 in
  let doe := yoe * 365 + yoe `div` 4 - yoe `div` 100 + doy in
  era * 146097 + doe - 719468.

(** [YYYY-MM-DD] to the timestamp of its midnight. *)
Definition parse_iso_date (s : string) : option Timestamp :=
  match split_on "-" s with
  | [ys; ms; ds] =>
      if bool_decide (String.length ys = 4%nat ∧ String.length ms = 2%nat
                      ∧ String.length ds = 2%nat)
      then
        y ← parse_nat ys; m ← parse_nat ms; d ← parse_nat ds;
        if (1 <=? m) && (m <=? 12) && (1 <=? d) && (d <=? days_in_month y m)
        then Some (Ts (days_from_civil y m d * day_ns))
        else None
      else None
  | _ => None
  end.

(** The position of a column name in the header. *)
Fixpoint position (name : string) (cols : list string) : option nat :=
  match cols with
  | [] => None
  | c :: rest => if String.eqb c name then Some 0%nat else S <$> position name rest
  end.

(** The text of a row's cell under a column; [None] without that column. *)
Definition cell (cols cells : list string) (name : string) : option string :=
  i ← position name cols; Some (nth i cells "").

Definition read_row (cols : list string) (line : string) : option Row :=
  let cells := split_on "," line in
  let fecha := match cell cols cells "Fecha" with
               | Some "" | None => None
               | Some s => Some s
               end in
  let tipo := match cell cols cells "Tipo de Alimento" with
              | Some "" | None => LNaN
              | Some s => LStr s
              end in
  match cell cols cells "Cantidad Consumida (gr)" with
  | None => Some (mkRow fecha tipo 0)
  | Some s => mkRow fecha tipo <$> parse_int s
  end.

(** A header line, then one line per row; a quantity that is not an
    integer is reported as a read error. *)
Definition csv_reader (content : string) : string + DataFrame :=
  match filter (λ l, l ≠ "") (split_on "010" content) with
  | [] => inl "No columns to parse from file"
  | header :: body =>
      let cols := split_on "," header in
      match mapM (read_row cols) body with
      | Some rs => inr (mkDataFrame cols rs)
      | None => inl "quantity is not an integer"
      end
  end.

Definition png (chart : Byte.byte) : bytes :=
  [Byte.x89; Byte.x50; Byte.x4e; Byte.x47; chart].

(** A pie chart has no negative wedge. *)
Definition pie (totals : gmap label Z) : option bytes :=
  if decide (map_Forall (λ _ v, 0 ≤ v) totals) then Some (png Byte.x01) else None.

Definition line (daily : Series) : option bytes := Some (png Byte.x02).

Definition pred (daily : Series) (f1 f2 : Frame Z) : option bytes :=
  Some (png Byte.x03).

(** A forecaster that repeats the last observation. *)
Definition naive (daily : Series) : nat → Z :=
  λ _, default 0 (last (values daily)).

Definition sarimax (daily : Series) : option (nat → Z) :=
  match daily with
  | [] => None
  | _ => Some (naive daily)
  end.

(** A seasonal model of period 7 needs two full cycles of data. *)
Definition holt_winters (daily : Series) : option (nat → Z) :=
  if (14 <=? length daily)%nat then Some (naive daily) else None.

Definition libs : Libs Z :=
  {| read_csv := csv_reader;
     parse_datetime := parse_iso_date;
     plot_pie := pie;
     plot_line := line;
     plot_pred := pred;
     SARIMAX_fit := sarimax;
     ExponentialSmoothing_fit := holt_winters |}.

Definition empty_world : World := mkWorld ∅ [].

(** Example uploads: a text joined from its lines. *)
Definition csv (lines : list string) : string :=
  String.concat (String "010" "") lines.

Definition header : string := "Fecha,Tipo de Alimento,Cantidad Consumida (gr)".

Definition upload_fruit : UploadFile :=
  mkUploadFile "consumo.csv"
    (csv [header; "2024-01-01,fruit,100"; "2024-01-03,fruit,50"]).

Definition upload_descending : UploadFile :=
  mkUploadFile "consumo.csv"
    (csv [header; "2024-01-14,bread,50"; "2024-01-01,fruit,100"]).

Definition upload_duplicate : UploadFile :=
  mkUploadFile "consumo.csv"
    (csv [header; "2024-01-01,fruit,100"; "2024-01-01,bread,50"]).

Definition upload_fortnight : UploadFile :=
  mkUploadFile "consumo.csv"
    (csv [header; "2024-01-01,fruit,100"; "2024-01-14,bread,50"]).

Definition upload_unlabelled : UploadFile :=
  mkUploadFile "consumo.csv"
    (csv [header; "2024-01-01,,100"; "2024-01-14,fruit,50"]).

Definition upload_bad_date : UploadFile :=
  mkUploadFile "consumo.csv"
    (csv [header; "2024-01-01,fruit,100"; "2024-13-01,fruit,50"]).

Definition upload_no_fecha : UploadFile :=
  mkUploadFile "consumo.csv"
    (csv ["Tipo de Alimento,Cantidad Consumida (gr)"; "fruit,100"]).

Definition upload_txt : UploadFile :=
  mkUploadFile "consumo.txt" (file upload_fruit).

(** Midnight of the d-th day from 2024-01-01, counted from 1 (day 1 is
    2024-01-01, day 32 is 2024-02-01). *)
Definition jan (d : Z) : Z := (19722 + d) * day_ns.

(** What the reader makes of an upload. *)
Definition data_of (up : UploadFile) : DataFrame :=
  match csv_reader (file up) with
  | inr data => data
  | inl _ => mkDataFrame [] []
  end.

(** The world after [generate_graphs] has run on an upload, from no files. *)
Definition world_after (up : UploadFile) : World :=
  (generate_graphs libs up empty_world).2.

Definition fruit_rows : list Row :=
  [ mkRow (Some "2024-01-01") (LStr "fruit") 100;
    mkRow (Some "2024-01-03") (LStr "fruit") 50 ].

Definition fruit_data : DataFrame :=
  mkDataFrame ["Fecha"; "Tipo de Alimento"; "Cantidad Consumida (gr)"] fruit_rows.

Definition fruit_frame : Frame (label * Z) :=
  [ (Ts (jan 1), (LStr "fruit", 100)); (Ts (jan 3), (LStr "fruit", 50)) ].

Definition fruit_daily : Frame (label * Z) :=
  [ (Ts (jan 1), (LStr "fruit", 100));
    (Ts (jan 2), fill_row);
    (Ts (jan 3), (LStr "fruit", 50)) ].

(** A fortnight of observations, and the forecast [naive] makes of them. *)
Definition fortnight_daily : Series :=
  (λ d, (Ts (jan d), 10 * d)) <$> seqZ 1 14.

Definition fortnight_forecast : Frame Z :=
  (λ d, (Ts (jan d), 140)) <$> seqZ 15 30.

(** An upload with no content, a world with a file outside the output
    directory, and a frame whose rows stand in descending date order. *)
Definition upload_empty : UploadFile := mkUploadFile "vacio.csv" "".

Definition world_with_hostname : World :=
  mkWorld {[ "/etc/hostname" := [Byte.x68; Byte.x6f; Byte.x73; Byte.x74] ]} [].

Definition descending_frame : Frame (label * Z) :=
  [ (Ts (jan 14), (LStr "bread", 50)); (Ts (jan 1), (LStr "fruit", 100)) ].

(** How the stand-in for Holt-Winters ends a request on too short a series. *)
Definition fit_failure : exn + Response :=
  inl (Unhandled (FitError "ExponentialSmoothing")).

Definition descending_forecast : Frame Z :=
  (λ d, (Ts (jan d), 50)) <$> seqZ 15 30.

End Demo.

(** Rewrites the handler's next step with [lemma] (the step returns, or it
    raises), by the equation [H] on the step's library call. *)
Ltac step_by lemma H := erewrite lemma by (rewrite ?H; reflexivity).

(** * Properties *)

(** ** The daily range *)

Lemma day_ns_pos : 0 < day_ns.
Proof. reflexivity. Qed.

Lemma StronglySorted_seqZ (m n : Z) : StronglySorted Z.lt (seqZ m n).
Proof.
  destruct (Z_lt_le_dec 0 n) as [Hn|Hn].
  2: { rewrite seqZ_nil by lia. constructor. }
  rewrite <- (Z2Nat.id n) by lia.
  generalize (Z.to_nat n) as k. clear. intros k. revert m.
  induction k as [|k IH]; intros m.
  - rewrite seqZ_nil by lia. constructor.
  - rewrite seqZ_cons by lia.
    replace (Z.pred (Z.of_nat (S k))) with (Z.of_nat k) by lia.
    constructor; [apply IH|].
    apply Forall_forall. intros x Hx%elem_of_seqZ. lia.
Qed.

Lemma elem_of_date_range (lo hi t : Z) :
  t ∈ date_range lo hi ↔ lo ≤ t ≤ hi ∧ (t - lo) `mod` day_ns = 0.
Proof.
  pose proof day_ns_pos as HD.
  unfold date_range. rewrite list_elem_of_fmap. setoid_rewrite elem_of_seqZ.
  split.
  - intros (k & -> & Hk).
    assert (k * day_ns ≤ hi - lo).
    { pose proof (Z.mul_div_le (hi - lo) day_ns HD). nia. }
    split; [nia|].
    replace (lo + k * day_ns - lo) with (k * day_ns) by lia.
    apply Z.mod_mul. lia.
  - intros [[Hlo Hhi] Hmod].
    exists ((t - lo) `div` day_ns). split.
    + pose proof (Z.div_mod (t - lo) day_ns ltac:(lia)). lia.
    + split; [apply Z.div_pos; lia|].
      pose proof (Z.div_le_mono (t - lo) (hi - lo) day_ns HD). lia.
Qed.

Lemma StronglySorted_date_range (lo hi : Z) : StronglySorted Z.lt (date_range lo hi).
Proof.
  unfold date_range.
  apply (StronglySorted_fmap _ Z.lt Z.lt); [| apply StronglySorted_seqZ].
  pose proof day_ns_pos. intros x y Hxy. nia.
Qed.

Lemma StronglySorted_lt_NoDup (l : list Z) : StronglySorted Z.lt l → NoDup l.
Proof.
  induction 1 as [|x l _ IH Hall]; constructor; [|done].
  intros Hin. rewrite Forall_forall in Hall. specialize (Hall _ Hin). lia.
Qed.

Lemma NoDup_date_range (lo hi : Z) : NoDup (date_range lo hi).
Proof. apply StronglySorted_lt_NoDup, StronglySorted_date_range. Qed.

(** On calendar dates the range is every calendar date from [lo] to [hi]. *)
Lemma elem_of_date_range_dates (lo hi t : Z) :
  is_date lo → t ∈ date_range lo hi ↔ is_date t ∧ lo ≤ t ≤ hi.
Proof.
  unfold is_date. intros Hlo. rewrite elem_of_date_range.
  pose proof day_ns_pos as HD.
  rewrite Zminus_mod, Hlo, Z.sub_0_r, Z.mod_mod by lia. tauto.
Qed.

(** ** Minimum and maximum of an index *)

Lemma elem_of_valid (idx : list Timestamp) (t : Z) : t ∈ valid idx ↔ Ts t ∈ idx.
Proof.
  unfold valid. rewrite list_elem_of_omap. split.
  - intros ([|ns] & Hin & Hx); simplify_eq. done.
  - intros Hin. exists (Ts t). done.
Qed.

Lemma foldr_min_spec (t : Z) (ts : list Z) :
  foldr Z.min t ts ∈ t :: ts ∧ ∀ x, x ∈ t :: ts → foldr Z.min t ts ≤ x.
Proof.
  induction ts as [|y ts [IHin IHle]]; simpl.
  - split; [left|]. intros x ->%list_elem_of_singleton. lia.
  - split.
    + destruct (Z.min_spec y (foldr Z.min t ts)) as [[_ ->]|[_ ->]].
      * right. left.
      * apply elem_of_cons in IHin as [->|?]; [left | right; right; done].
    + intros x Hx. apply elem_of_cons in Hx as [->|Hx].
      * specialize (IHle t ltac:(left)). lia.
      * apply elem_of_cons in Hx as [->|Hx]; [lia|].
        specialize (IHle x ltac:(right; done)). lia.
Qed.

Lemma foldr_max_spec (t : Z) (ts : list Z) :
  foldr Z.max t ts ∈ t :: ts ∧ ∀ x, x ∈ t :: ts → x ≤ foldr Z.max t ts.
Proof.
  induction ts as [|y ts [IHin IHle]]; simpl.
  - split; [left|]. intros x ->%list_elem_of_singleton. lia.
  - split.
    + destruct (Z.max_spec y (foldr Z.max t ts)) as [[_ ->]|[_ ->]].
      * apply elem_of_cons in IHin as [->|?]; [left | right; right; done].
      * right. left.
    + intros x Hx. apply elem_of_cons in Hx as [->|Hx].
      * specialize (IHle t ltac:(left)). lia.
      * apply elem_of_cons in Hx as [->|Hx]; [lia|].
        specialize (IHle x ltac:(right; done)). lia.
Qed.

Lemma index_min_Some (idx : list Timestamp) (lo : Z) :
  index_min idx = Some lo ↔ Ts lo ∈ idx ∧ ∀ t, Ts t ∈ idx → lo ≤ t.
Proof.
  unfold index_min. setoid_rewrite <- elem_of_valid.
  destruct (valid idx) as [|t ts].
  - split; [done|]. intros [?%elem_of_nil _]. done.
  - pose proof (foldr_min_spec t ts) as [Hin Hle]. split.
    + intros [= <-]. done.
    + intros [Hlo Hmin]. f_equal.
      specialize (Hmin _ Hin). specialize (Hle _ Hlo). lia.
Qed.

Lemma index_max_Some (idx : list Timestamp) (hi : Z) :
  index_max idx = Some hi ↔ Ts hi ∈ idx ∧ ∀ t, Ts t ∈ idx → t ≤ hi.
Proof.
  unfold index_max. setoid_rewrite <- elem_of_valid.
  destruct (valid idx) as [|t ts].
  - split; [done|]. intros [?%elem_of_nil _]. done.
  - pose proof (foldr_max_spec t ts) as [Hin Hle]. split.
    + intros [= <-]. done.
    + intros [Hhi Hmax]. f_equal.
      specialize (Hmax _ Hin). specialize (Hle _ Hhi). lia.
Qed.
(** ** int64 sums *)

Lemma wrap_add_l (a b : Z) : Int64.wrap (Int64.wrap a + b) = Int64.wrap (a + b).
Proof.
  unfold Int64.wrap. f_equal.
  replace ((a + 2 ^ 63) `mod` 2 ^ 64 - 2 ^ 63 + b + 2 ^ 63)
    with ((a + 2 ^ 63) `mod` 2 ^ 64 + b) by lia.
  rewrite Zplus_mod_idemp_l. f_equal. lia.
Qed.

Lemma wrap_add_r (a b : Z) : Int64.wrap (a + Int64.wrap b) = Int64.wrap (a + b).
Proof. rewrite (Z.add_comm a), wrap_add_l. f_equal. lia. Qed.

Lemma wrap_in_range (a : Z) : Int64.in_range (Int64.wrap a).
Proof.
  unfold Int64.in_range, Int64.wrap.
  pose proof (Z.mod_pos_bound (a + 2 ^ 63) (2 ^ 64) ltac:(lia)). lia.
Qed.

Lemma wrap_id (a : Z) : Int64.in_range a → Int64.wrap a = a.
Proof.
  unfold Int64.in_range, Int64.wrap. intros H.
  rewrite Z.mod_small; lia.
Qed.

Lemma Int64_sum_acc (acc : Z) (l : list Z) :
  Int64.wrap (foldl Int64.add acc l) = Int64.wrap (acc + Zsum l).
Proof.
  revert acc. induction l as [|x l IH]; intros acc; simpl.
  - f_equal. lia.
  - rewrite IH. unfold Int64.add. rewrite wrap_add_l. f_equal. lia.
Qed.

Lemma Int64_foldl_in_range (l : list Z) (acc : Z) :
  Int64.in_range acc → Int64.in_range (foldl Int64.add acc l).
Proof.
  revert acc. induction l as [|y l IH]; intros acc Hacc; simpl; [done|].
  apply IH, wrap_in_range.
Qed.

Lemma Int64_sum_wrap (l : list Z) : Int64.sum l = Int64.wrap (Zsum l).
Proof.
  unfold Int64.sum.
  transitivity (Int64.wrap (foldl Int64.add 0 l)).
  - symmetry. apply wrap_id, Int64_foldl_in_range. unfold Int64.in_range. lia.
  - rewrite Int64_sum_acc. f_equal.
Qed.

(** Without overflow the int64 sum is the exact sum. *)
Lemma Int64_sum_exact (l : list Z) : Int64.in_range (Zsum l) → Int64.sum l = Zsum l.
Proof. intros H. rewrite Int64_sum_wrap. by apply wrap_id. Qed.

Lemma msum_empty : msum ∅ = 0.
Proof. unfold msum. apply map_fold_empty. Qed.

Lemma msum_insert (m : gmap label Z) (k : label) (v : Z) :
  msum (<[k := v]> m) = v + msum (delete k m).
Proof.
  unfold msum. rewrite <- insert_delete_eq.
  rewrite map_fold_insert_L; [done | intros; lia | apply lookup_delete_eq].
Qed.

Lemma msum_delete (m : gmap label Z) (k : label) :
  msum m = default 0 (m !! k) + msum (delete k m).
Proof.
  destruct (m !! k) as [v|] eqn:Hk; simpl.
  - unfold msum. rewrite (map_fold_delete_L _ _ k v m); [done | intros; lia | done].
  - rewrite delete_id by done. lia.
Qed.

Lemma totals_sum_wrap (m : gmap label Z) : totals_sum m = Int64.wrap (msum m).
Proof.
  unfold totals_sum, msum.
  induction m as [|k v m Hk Hfold IH] using map_first_key_ind.
  - rewrite !map_fold_empty. reflexivity.
  - rewrite !map_fold_insert_first_key by done.
    rewrite IH. unfold Int64.add. apply wrap_add_r.
Qed.

Lemma group_add_msum (acc : gmap label Z) (k : label) (q : Z) :
  k ≠ LNaN → Int64.wrap (msum (group_add acc (k, q))) = Int64.wrap (msum acc + q).
Proof.
  intros Hk.
  assert (group_add acc (k, q) = <[k := Int64.add (default 0 (acc !! k)) q]> acc) as ->.
  { unfold group_add. simpl. destruct k; done. }
  rewrite msum_insert, (msum_delete acc k). unfold Int64.add.
  rewrite wrap_add_l. f_equal. lia.
Qed.

Lemma groupby_sum_acc (acc : gmap label Z) (kqs : list (label * Z)) :
  Int64.wrap (msum (foldl group_add acc kqs)) = Int64.wrap (msum acc + Zsum (keyed kqs)).
Proof.
  revert acc. induction kqs as [|[k q] kqs IH]; intros acc; simpl.
  - f_equal. unfold keyed. simpl. lia.
  - rewrite IH. destruct (decide (k = LNaN)) as [->|Hk].
    + done.
    + rewrite <- wrap_add_l, group_add_msum, wrap_add_l by done.
      f_equal. unfold keyed. destruct k; try done; csimpl; lia.
Qed.

(** The category totals add up to the quantities of the rows with a category. *)
Lemma totals_sum_groupby (kqs : list (label * Z)) :
  totals_sum (groupby_sum kqs) = Int64.wrap (Zsum (keyed kqs)).
Proof.
  rewrite totals_sum_wrap. unfold groupby_sum.
  rewrite groupby_sum_acc, msum_empty. done.
Qed.
(** ** Lookup by label *)

Section Loc.

Context {A : Type}.
Implicit Types (obj : Frame A) (t : Timestamp) (a : A).

Lemma loc_None obj t : loc t obj = None ↔ t ∉ index obj.
Proof.
  unfold index. induction obj as [|[i a] rest IH]; simpl.
  - split; [intros _; apply not_elem_of_nil | done].
  - rewrite not_elem_of_cons. destruct (decide (i = t)) as [->|Hne].
    + split; [done | intros [? _]; done].
    + rewrite IH. split; [intros ?; split; [congruence | done] | intros [_ ?]; done].
Qed.

Lemma loc_Some_elem_of obj t a : loc t obj = Some a → (t, a) ∈ obj.
Proof.
  induction obj as [|[i b] rest IH]; simpl; [done|].
  destruct (decide (i = t)) as [->|Hne].
  - intros [= ->]. left.
  - intros H. right. auto.
Qed.

Lemma loc_elem_of obj t a : NoDup (index obj) → (t, a) ∈ obj → loc t obj = Some a.
Proof.
  unfold index. induction obj as [|[i b] rest IH]; simpl.
  - intros _ ?%elem_of_nil. done.
  - intros [Hi Hnd]%NoDup_cons Hin.
    apply elem_of_cons in Hin as [[= <- <-]|Hin].
    + rewrite decide_True by done. done.
    + rewrite decide_False; [auto|].
      intros ->. apply Hi. apply list_elem_of_fmap. exists (t, a). done.
Qed.

End Loc.

(** ** Re-indexing *)

Section Asfreq.

Context {A : Type} (fill : A).
Implicit Types (obj out : Frame A).

Lemma index_reindexed (target : list Z) obj :
  index (reindexed fill target obj) = Ts <$> target.
Proof. unfold index, reindexed. rewrite <- list_fmap_compose. done. Qed.

Lemma valid_fmap_Ts (ts : list Z) : valid (Ts <$> ts) = ts.
Proof. unfold valid. induction ts as [|t ts IH]; csimpl; [done|]. by rewrite IH. Qed.

Lemma NoDup_index_reindexed lo hi obj :
  NoDup (index (reindexed fill (date_range lo hi) obj)).
Proof.
  rewrite index_reindexed. apply NoDup_fmap_2; [| apply NoDup_date_range].
  intros x y [= ->]. done.
Qed.

(** When [asfreq] succeeds, and what it returns. *)
Lemma asfreq_inr obj out :
  asfreq fill obj = inr out ↔
    (obj = [] ∧ out = [])
    ∨ (NoDup (index obj) ∧
       ∃ lo hi, index_min (index obj) = Some lo ∧ index_max (index obj) = Some hi
                ∧ out = reindexed fill (date_range lo hi) obj).
Proof.
  unfold asfreq, reindex. destruct obj as [|r rest].
  - split; [intros [= <-]; left; done | intros [[_ ->]|[_ (lo & hi & Hlo & _)]]; [done|]].
    rewrite index_min_Some in Hlo. destruct Hlo as [?%elem_of_nil _]. done.
  - destruct (index_min _) as [lo|] eqn:Hlo, (index_max _) as [hi|] eqn:Hhi;
      try (split; [done | intros [[? _]|[_ (? & ? & ? & ? & _)]]; done]).
    destruct (decide (NoDup _)) as [Hnd|Hnd].
    + split.
      * intros [= <-]. right. split; [done|]. exists lo, hi. done.
      * intros [[? _]|[_ (? & ? & [= <-] & [= <-] & ->)]]; done.
    + split; [done | intros [[? _]|[? _]]; done].
Qed.

Lemma asfreq_duplicates obj (t : Z) :
  Ts t ∈ index obj → ¬ NoDup (index obj) → asfreq fill obj = inl DuplicateLabelsError.
Proof.
  intros Hin Hnd. unfold asfreq, reindex. destruct obj as [|r rest]; [by apply elem_of_nil in Hin|].
  apply elem_of_valid in Hin.
  unfold index_min, index_max. destruct (valid _) as [|x xs]; [by apply elem_of_nil in Hin|].
  rewrite decide_False by done. done.
Qed.

(** The bounds of a daily range are its own minimum and maximum. *)
Lemma date_range_bounds lo hi :
  lo ≤ hi →
  ∃ hi', index_min (Ts <$> date_range lo hi) = Some lo
         ∧ index_max (Ts <$> date_range lo hi) = Some hi'
         ∧ date_range lo hi' = date_range lo hi.
Proof.
  intros Hle. pose proof day_ns_pos as HD.
  set (n := (hi - lo) `div` day_ns).
  assert (0 ≤ n) by (apply Z.div_pos; lia).
  assert (n * day_ns ≤ hi - lo) by (pose proof (Z.mul_div_le (hi - lo) day_ns HD); lia).
  exists (lo + n * day_ns). split; [| split].
  - apply index_min_Some. split.
    + apply list_elem_of_fmap. exists lo. split; [done|].
      apply elem_of_date_range. rewrite Z.sub_diag. split; [lia | done].
    + intros t (t' & [= <-] & Ht)%list_elem_of_fmap.
      apply elem_of_date_range in Ht. lia.
  - apply index_max_Some. split.
    + apply list_elem_of_fmap. exists (lo + n * day_ns). split; [done|].
      apply elem_of_date_range. split; [nia|].
      replace (lo + n * day_ns - lo) with (n * day_ns) by lia. apply Z.mod_mul. lia.
    + intros t (t' & [= <-] & Ht)%list_elem_of_fmap.
      apply elem_of_date_range in Ht as [[? ?] Hmod].
      assert ((t - lo) `div` day_ns ≤ n) by (apply Z.div_le_mono; lia).
      pose proof (Z.div_mod (t - lo) day_ns ltac:(lia)). nia.
  - unfold date_range. do 2 f_equal.
    replace (lo + n * day_ns - lo) with (n * day_ns) by lia.
    rewrite Z.div_mul by lia. done.
Qed.

Lemma reindex_own_index obj :
  NoDup (index obj) → (λ i, (i, default fill (loc i obj))) <$> index obj = obj.
Proof.
  unfold index. induction obj as [|[i a] rest IH]; [done|].
  intros [Hi Hnd]%NoDup_cons. csimpl. rewrite decide_True by done. f_equal.
  rewrite <- (IH Hnd) at 2. apply list_fmap_ext. intros _ j Hj%list_elem_of_lookup_2.
  rewrite decide_False; [done|]. intros ->. done.
Qed.

(** A frame whose index is a daily range is its own re-indexing. *)
Lemma asfreq_on_daily_index obj lo hi :
  lo ≤ hi → index obj = Ts <$> date_range lo hi → asfreq fill obj = inr obj.
Proof.
  intros Hle Hidx.
  destruct (date_range_bounds lo hi Hle) as (hi' & Hlo' & Hhi' & Hrange).
  assert (NoDup (index obj)) as Hnd.
  { rewrite Hidx. apply NoDup_fmap_2; [intros x y [= ->]; done | apply NoDup_date_range]. }
  apply asfreq_inr. right. split; [done|].
  exists lo, hi'. rewrite Hidx. split; [done | split; [done|]].
  unfold reindexed. rewrite Hrange.
  rewrite <- (reindex_own_index obj Hnd) at 1. rewrite Hidx.
  rewrite <- list_fmap_compose. done.
Qed.

(** Re-indexing a re-indexed frame changes nothing. *)
Lemma asfreq_idempotent obj out :
  asfreq fill obj = inr out → asfreq fill out = inr out.
Proof.
  intros [[_ ->]|(Hnd & lo & hi & Hlo & Hhi & ->)]%asfreq_inr; [done|].
  apply index_min_Some in Hlo as [Hlo Hmin]. apply index_max_Some in Hhi as [Hhi _].
  apply (asfreq_on_daily_index _ lo hi); [auto | apply index_reindexed].
Qed.

End Asfreq.

Lemma index_daily_consumption (data : Frame (label * Z)) :
  index (daily_consumption data) = index data.
Proof. unfold index, daily_consumption. rewrite <- list_fmap_compose. done. Qed.

(** C2, as the code has it: for rows whose dates are calendar dates, pairwise
    distinct, re-indexing succeeds and the daily series has exactly one entry
    per calendar day from the smallest to the largest date, in order: the
    row's quantity on a day of the input, zero on the others.  Re-indexing
    its own output, frame or series, returns it unchanged. *)
Theorem asfreq_daily_series (data : Frame (label * Z)) (lo hi : Z) :
  (∀ i, i ∈ index data → ∃ t, i = Ts t ∧ is_date t) →
  NoDup (index data) →
  Ts lo ∈ index data → (∀ t, Ts t ∈ index data → lo ≤ t) →
  Ts hi ∈ index data → (∀ t, Ts t ∈ index data → t ≤ hi) →
  ∃ out days,
    asfreq fill_row data = inr out
    ∧ index (daily_consumption out) = Ts <$> days
    ∧ StronglySorted Z.lt days
    ∧ (∀ t, t ∈ days ↔ is_date t ∧ lo ≤ t ≤ hi)
    ∧ (∀ t l q, (Ts t, (l, q)) ∈ data → (Ts t, q) ∈ daily_consumption out)
    ∧ (∀ t, t ∈ days → Ts t ∉ index data → (Ts t, 0) ∈ daily_consumption out)
    ∧ asfreq fill_row out = inr out
    ∧ asfreq 0 (daily_consumption out) = inr (daily_consumption out).
Proof.
  intros Hdates Hnd Hlo Hmin Hhi Hmax.
  assert (is_date lo) as Hlod.
  { destruct (Hdates _ Hlo) as (t & [= <-] & ?). done. }
  assert (asfreq fill_row data = inr (reindexed fill_row (date_range lo hi) data)) as Hout.
  { apply asfreq_inr. right. split; [done|]. exists lo, hi.
    split; [apply index_min_Some | split; [apply index_max_Some |]]; done. }
  exists (reindexed fill_row (date_range lo hi) data), (date_range lo hi).
  split; [done|]. split; [by rewrite index_daily_consumption, index_reindexed|].
  split; [apply StronglySorted_date_range|].
  split; [intros t; by apply elem_of_date_range_dates|].
  split; [| split; [| split]].
  - intros t l q Hin.
    assert (t ∈ date_range lo hi) as Ht.
    { assert (Ts t ∈ index data) as Hi by (apply list_elem_of_fmap; exists (Ts t, (l, q)); done).
      apply elem_of_date_range_dates; [done|].
      destruct (Hdates _ Hi) as (t' & [= <-] & ?). auto. }
    unfold daily_consumption, reindexed. rewrite <- list_fmap_compose.
    apply list_elem_of_fmap. exists t. split; [|done]. simpl.
    rewrite (loc_elem_of data (Ts t) (l, q)) by done. done.
  - intros t Ht Hnot.
    unfold daily_consumption, reindexed. rewrite <- list_fmap_compose.
    apply list_elem_of_fmap. exists t. split; [|done]. simpl.
    apply loc_None in Hnot. rewrite Hnot. done.
  - by apply (asfreq_idempotent _ data).
  - apply (asfreq_on_daily_index _ _ lo hi); [auto|].
    by rewrite index_daily_consumption, index_reindexed.
Qed.
(** ** Conservation *)

Lemma Zsum_zero {A} (l : list A) : Zsum ((λ _, 0) <$> l) = 0.
Proof. induction l as [|x l IH]; csimpl; [done | by rewrite IH]. Qed.

(** Changing a function at one point of a duplicate-free list changes the
    sum by that point's value. *)
Lemma Zsum_update (g : Z → Z) (t0 q : Z) (grid : list Z) :
  NoDup grid → t0 ∈ grid → g t0 = 0 →
  Zsum ((λ t, if decide (t0 = t) then q else g t) <$> grid) = q + Zsum (g <$> grid).
Proof.
  intros Hnd Hin Hg. induction grid as [|x xs IH]; [by apply elem_of_nil in Hin|].
  apply NoDup_cons in Hnd as [Hx Hnd]. rewrite !fmap_cons. unfold Zsum in *. simpl.
  destruct (decide (t0 = x)) as [<-|Hne].
  - rewrite Hg, Z.add_0_l. do 2 f_equal. apply list_fmap_ext.
    intros _ t Ht%list_elem_of_lookup_2. rewrite decide_False; [done|]. intros <-. done.
  - apply elem_of_cons in Hin as [?|Hin]; [done|]. rewrite IH by done. lia.
Qed.

(** Re-indexing on a duplicate-free grid that holds every row's label keeps
    the sum of the quantities. *)
Lemma Zsum_reindex (grid : list Z) (data : Frame (label * Z)) :
  NoDup grid → NoDup (index data) →
  (∀ i, i ∈ index data → ∃ t, i = Ts t ∧ t ∈ grid) →
  Zsum ((λ t, (default fill_row (loc (Ts t) data)).2) <$> grid)
  = Zsum ((λ r, r.2.2) <$> data).
Proof.
  intros Hgrid. unfold index. induction data as [|[i [l q]] rest IH]; intros Hnd Hin.
  - simpl. apply Zsum_zero.
  - apply NoDup_cons in Hnd as [Hi Hnd]. csimpl.
    destruct (Hin i ltac:(left)) as (t0 & -> & Ht0).
    rewrite <- IH; [| done | intros j Hj; apply Hin; by right].
    rewrite <- (Zsum_update _ t0 q grid Hgrid Ht0).
    + f_equal. apply list_fmap_ext. intros _ t _. simpl.
      destruct (decide (Ts t0 = Ts t)) as [[= ->]|Hne].
      * by rewrite decide_True.
      * rewrite decide_False; [done | intros ->; done].
    + simpl in Hi. apply (loc_None rest) in Hi. rewrite Hi. done.
Qed.

Lemma keyed_all (kqs : list (label * Z)) :
  (∀ kq, kq ∈ kqs → kq.1 ≠ LNaN) → keyed kqs = snd <$> kqs.
Proof.
  unfold keyed. induction kqs as [|[k q] kqs IH]; intros Hk; csimpl; [done|].
  rewrite IH by (intros kq ?; apply Hk; by right).
  specialize (Hk (k, q) ltac:(left)). destruct k; done.
Qed.

(** C3, as the code has it: when every row has a category and a calendar
    date and re-indexing succeeds, the category totals add up to the sum of
    the daily series (both sums as pandas computes them on int64). *)
Theorem category_totals_conserve_mass (data out : Frame (label * Z)) :
  asfreq fill_row data = inr out →
  (∀ i l q, (i, (l, q)) ∈ data → l ≠ LNaN ∧ ∃ t, i = Ts t ∧ is_date t) →
  totals_sum (tipo_alimento_totales data) = Int64.sum (values (daily_consumption out)).
Proof.
  intros Hout Hrows.
  unfold tipo_alimento_totales. rewrite totals_sum_groupby, Int64_sum_wrap. f_equal.
  rewrite keyed_all.
  2: { intros [k q] Hin. unfold values in Hin.
       apply list_elem_of_fmap in Hin as ([i [k' q']] & [= <- <-] & Hin).
       apply (Hrows _ _ _ Hin). }
  apply asfreq_inr in Hout as [[-> ->]|(Hnd & lo & hi & Hlo & Hhi & ->)]; [done|].
  apply index_min_Some in Hlo as [Hlo Hmin]. apply index_max_Some in Hhi as [Hhi Hmax].
  assert (∀ i, i ∈ index data → ∃ t, i = Ts t ∧ is_date t) as Hdates.
  { intros i ([i' [l q]] & -> & Hin)%list_elem_of_fmap. apply (Hrows _ _ _ Hin). }
  assert (is_date lo) as Hlod by (destruct (Hdates _ Hlo) as (? & [= <-] & ?); done).
  transitivity (Zsum ((λ r, r.2.2) <$> data)).
  { f_equal. unfold values. rewrite <- list_fmap_compose. done. }
  rewrite <- (Zsum_reindex (date_range lo hi) data); [| apply NoDup_date_range | done |].
  { f_equal. unfold values, daily_consumption, reindexed.
    rewrite <- !list_fmap_compose. done. }
  intros i Hi. destruct (Hdates _ Hi) as (t & -> & Ht). exists t. split; [done|].
  apply elem_of_date_range_dates; auto.
Qed.

(** ** Paths and names *)

Lemma list_ascii_of_string_app (s1 s2 : string) :
  list_ascii_of_string (s1 +:+ s2)
  = (list_ascii_of_string s1 ++ list_ascii_of_string s2)%list.
Proof. induction s1 as [|c s1 IH]; simpl; [done | by rewrite IH]. Qed.

(** [endswith] is Python's: some text followed by the suffix. *)
Lemma endswith_spec (s suf : string) :
  endswith s suf = true ↔ ∃ p, s = p +:+ suf.
Proof.
  unfold endswith. rewrite bool_decide_eq_true. split.
  - intros [k Hk]. exists (string_of_list_ascii k).
    rewrite <- (string_of_list_ascii_of_string s), Hk.
    rewrite <- (string_of_list_ascii_of_string (_ +:+ _)).
    by rewrite list_ascii_of_string_app, list_ascii_of_string_of_list_ascii.
  - intros [p ->]. exists (list_ascii_of_string p). apply list_ascii_of_string_app.
Qed.

Lemma chart_paths :
  pie_path = "./generated_graphs/grafica_pastel.png"
  ∧ line_path = "./generated_graphs/grafica_linea.png"
  ∧ pred_path = "./generated_graphs/grafica_predicciones.png".
Proof. by vm_compute. Qed.

Lemma chart_paths_distinct :
  pie_path ≠ line_path ∧ pie_path ≠ pred_path ∧ line_path ≠ pred_path.
Proof. destruct chart_paths as (-> & -> & ->). done. Qed.

(** ** Validation failures *)

Lemma issubset_false_missing (data : DataFrame) :
  issubset required_columns (columns data) = false ↔ missing_columns data ≠ ∅.
Proof.
  unfold issubset, missing_columns. rewrite bool_decide_eq_false.
  split.
  - intros Hn He. apply Hn. intros x Hx.
    apply dec_stable. intros Hnot.
    apply (not_elem_of_empty (C := gset string) x).
    rewrite <- He. apply elem_of_difference. done.
  - intros Hne Hsub. apply Hne. apply set_eq. intros x.
    rewrite elem_of_difference.
    split; [intros [? ?]; exfalso; auto | intros ?%not_elem_of_empty; done].
Qed.

Lemma missing_columns_required (data : DataFrame) :
  missing_columns data ⊆ required_columns.
Proof. unfold missing_columns. apply subseteq_difference_l. done. Qed.

Section Generate.

Context {float : Type} (L : Libs float).

(** The handler past the extension check, the read and the column check. *)
Lemma generate_graphs_validated (up : UploadFile) (w : World) (data : DataFrame) :
  endswith (filename up) ".csv" = true →
  read_csv L (file up) = inr data →
  issubset required_columns (columns data) = true →
  generate_graphs L up w =
    (data <<- lift (index_by_date L data);
     _ <<- savefig pie_path "pie" (plot_pie L (tipo_alimento_totales data));
     data <<- lift (asfreq fill_row data);
     _ <<- savefig line_path "line" (plot_line L (daily_consumption data));
     sarima <<- lift (sarima_forecast L (daily_consumption data));
     holt <<- lift (holt_forecast L (daily_consumption data));
     _ <<- savefig pred_path "predictions"
             (plot_pred L (daily_consumption data) sarima holt);
     ret {| pie_chart := pie_path;
            line_chart := line_path;
            prediction_chart := pred_path |}) (record (EvReadCsv (file up)) w).
Proof.
  intros Hext Hread Hcols.
  unfold generate_graphs, try_read_csv. rewrite Hext. simpl.
  unfold bind at 1. rewrite Hread, Hcols. reflexivity.
Qed.

(** A response comes only out of a run in which every step succeeded. *)
Lemma generate_graphs_inr (up : UploadFile) (w w' : World) (resp : Response) :
  generate_graphs L up w = (inr resp, w') →
  ∃ data frame pie out line sarima holt pred,
    endswith (filename up) ".csv" = true
    ∧ read_csv L (file up) = inr data
    ∧ issubset required_columns (columns data) = true
    ∧ index_by_date L data = inr frame
    ∧ plot_pie L (tipo_alimento_totales frame) = Some pie
    ∧ asfreq fill_row frame = inr out
    ∧ plot_line L (daily_consumption out) = Some line
    ∧ sarima_forecast L (daily_consumption out) = inr sarima
    ∧ holt_forecast L (daily_consumption out) = inr holt
    ∧ plot_pred L (daily_consumption out) sarima holt = Some pred
    ∧ w' = write_file pred_path pred
             (write_file line_path line
                (write_file pie_path pie (record (EvReadCsv (file up)) w))).
Proof.
  unfold generate_graphs.
  destruct (endswith _ _) eqn:Hext; simpl; [| discriminate].
  unfold bind at 1. unfold try_read_csv.
  destruct (read_csv L _) as [e|data] eqn:Hread; [discriminate|].
  destruct (issubset _ _) eqn:Hcols; simpl; [| discriminate].
  unfold bind at 1.
  destruct (index_by_date L data) as [f|frame] eqn:Hframe; simpl; [discriminate|].
  unfold bind at 1.
  destruct (plot_pie L _) as [pie|] eqn:Hpie; simpl; [| discriminate].
  unfold bind at 1.
  destruct (asfreq fill_row frame) as [f|out] eqn:Hout; simpl; [discriminate|].
  unfold bind at 1.
  destruct (plot_line L _) as [line|] eqn:Hline; simpl; [| discriminate].
  unfold bind at 1.
  destruct (sarima_forecast L _) as [f|sarima] eqn:Hs; simpl; [discriminate|].
  unfold bind at 1.
  destruct (holt_forecast L _) as [f|holt] eqn:Hh; simpl; [discriminate|].
  unfold bind at 1.
  destruct (plot_pred L _ _ _) as [pred|] eqn:Hpred; simpl; [| discriminate].
  intros [= <- <-].
  exists data, frame, pie, out, line, sarima, holt, pred. done.
Qed.

End Generate.

(** A forecast of [steps] steps has [steps] entries, one per day after the
    last observed one. *)
Lemma forecast_inr {float} (name : string) (predict : nat → float)
    (endog : Series) (steps : nat) (f : Frame float) :
  forecast name predict endog steps = inr f →
  ∃ t, last_index endog = Some t
       ∧ length f = steps
       ∧ ∀ k, (k < steps)%nat → index f !! k = Some (Ts (t + (Z.of_nat k + 1) * day_ns)).
Proof.
  unfold forecast. destruct (last_index endog) as [t|]; [| discriminate].
  intros [= <-]. exists t. split; [done|].
  rewrite length_fmap, length_seq. split; [done|].
  intros k Hk. unfold index. rewrite <- list_fmap_compose, list_lookup_fmap.
  rewrite lookup_seq_lt by done. simpl. do 3 f_equal. lia.
Qed.

(** ** Running the handler step by step *)

Lemma bind_inr {A B} (m : M A) (k : A → M B) (w w' : World) (a : A) :
  m w = (inr a, w') → bind m k w = k a w'.
Proof. unfold bind. intros ->. reflexivity. Qed.

Lemma bind_inl {A B} (m : M A) (k : A → M B) (w w' : World) (e : exn) :
  m w = (inl e, w') → bind m k w = (inl e, w').
Proof. unfold bind. intros ->. reflexivity. Qed.

Section Claims.

Context {float : Type} (L : Libs float).

(** C6: an upload whose name does not end in [.csv] is answered with the
    client error 400, and the world is returned as it was: the content has
    not been read or parsed (the log has no new [EvReadCsv]), whatever the
    libraries would do with it. *)
Theorem generate_graphs_rejects_extension (up : UploadFile) (w : World) :
  endswith (filename up) ".csv" = false →
  generate_graphs L up w = (inl (HTTPException 400 DetailNotCsv), w)
  ∧ is_client_error (HTTPException 400 DetailNotCsv).
Proof.
  intros Hext. split.
  - unfold generate_graphs. rewrite Hext. reflexivity.
  - unfold is_client_error. simpl. lia.
Qed.

(** C1, as the code has it: an upload that parses but lacks a required
    column is answered with the client error 400, whose message lists the
    three required columns, whichever of them are missing (so every
    missing one is listed).  Only the read is logged. *)
Theorem generate_graphs_missing_columns (up : UploadFile) (w : World) (data : DataFrame) :
  endswith (filename up) ".csv" = true →
  read_csv L (file up) = inr data →
  missing_columns data ≠ ∅ →
  ∃ e, generate_graphs L up w = (inl e, record (EvReadCsv (file up)) w)
       ∧ is_client_error e
       ∧ names_listed e = required_columns
       ∧ missing_columns data ⊆ names_listed e.
Proof.
  intros Hext Hread Hmiss.
  exists (HTTPException 400 (DetailColumns required_columns)).
  split; [| split; [| split]].
  - unfold generate_graphs, bind, try_read_csv. rewrite Hext, Hread. simpl.
    apply issubset_false_missing in Hmiss. rewrite Hmiss. reflexivity.
  - unfold is_client_error. simpl. lia.
  - reflexivity.
  - apply missing_columns_required.
Qed.

(** C8: when one value of the date column does not parse, the request ends
    in an unhandled failure: there is no response structure, and no chart
    has been drawn or written (the files are as before; the log has gained
    the read only). *)
Theorem generate_graphs_unparseable_date (up : UploadFile) (w : World)
    (data : DataFrame) (s : string) :
  endswith (filename up) ".csv" = true →
  read_csv L (file up) = inr data →
  issubset required_columns (columns data) = true →
  Some s ∈ Fecha <$> rows data →
  parse_datetime L s = None →
  generate_graphs L up w
  = (inl (Unhandled DateParseError), record (EvReadCsv (file up)) w).
Proof.
  intros Hext Hread Hcols Hin Hparse.
  rewrite (generate_graphs_validated L up w data) by done.
  assert (index_by_date L data = inl DateParseError) as Hframe;
    [| step_by @bind_inl Hframe; reflexivity].
  unfold index_by_date, to_datetime.
  destruct (mapM _ _) as [ts|] eqn:Hm; [| reflexivity].
  exfalso. apply mapM_Some in Hm.
  apply list_elem_of_lookup in Hin as [i Hi].
  destruct (Forall2_lookup_l _ _ _ _ _ Hm Hi) as (t & _ & Ht).
  simpl in Ht. congruence.
Qed.

(** C9: when the upload gets as far as the line chart and then a forecaster
    fails, the request ends in an unhandled failure with no response
    structure; the pie and line charts written on the way are on disk, and
    the prediction chart's file is as it was before the request. *)
Theorem forecast_failure_keeps_charts (up : UploadFile) (w : World)
    (data : DataFrame) (frame out : Frame (label * Z)) (pie line : bytes) :
  endswith (filename up) ".csv" = true →
  read_csv L (file up) = inr data →
  issubset required_columns (columns data) = true →
  index_by_date L data = inr frame →
  plot_pie L (tipo_alimento_totales frame) = Some pie →
  asfreq fill_row frame = inr out →
  plot_line L (daily_consumption out) = Some line →
  (∃ f, sarima_forecast L (daily_consumption out) = inl f)
  ∨ (∃ f, holt_forecast L (daily_consumption out) = inl f) →
  ∃ f w', generate_graphs L up w = (inl (Unhandled f), w')
          ∧ files w' !! pie_path = Some pie
          ∧ files w' !! line_path = Some line
          ∧ files w' !! pred_path = files w !! pred_path.
Proof.
  intros Hext Hread Hcols Hframe Hpie Hout Hline Hfail.
  destruct chart_paths_distinct as (Hpl & Hpp & Hlp).
  rewrite (generate_graphs_validated L up w data) by done.
  step_by @bind_inr Hframe. step_by @bind_inr Hpie. step_by @bind_inr Hout. step_by @bind_inr Hline.
  assert (∀ w0 : World,
            files (write_file line_path line (write_file pie_path pie w0)) !! pie_path
            = Some pie
            ∧ files (write_file line_path line (write_file pie_path pie w0)) !! line_path
              = Some line
            ∧ files (write_file line_path line (write_file pie_path pie w0)) !! pred_path
              = files w0 !! pred_path) as Hfiles.
  { intros w0. simpl. rewrite lookup_insert_eq, (lookup_insert_ne _ line_path pie_path) by done.
    rewrite lookup_insert_eq, !lookup_insert_ne by done. done. }
  destruct (sarima_forecast L _) as [f1|sarima] eqn:Hs.
  - exists f1. eexists. split; [step_by @bind_inl Hs; reflexivity | apply (Hfiles (record (EvReadCsv (file up)) w))].
  - destruct Hfail as [[f Hf]|[f Hf]]; [discriminate|].
    exists f. eexists. split; [step_by @bind_inr Hs; step_by @bind_inl Hf; reflexivity | apply (Hfiles (record (EvReadCsv (file up)) w))].
Qed.

(** C10, as the code has it: an upload that passes the extension, parsing
    and column checks, whose dates convert and whose pie chart is drawn,
    and in which two rows carry the same date, is not answered with a
    client error: re-indexing raises on the duplicate label and the
    request ends in an unhandled failure (server error), the pie chart
    already on disk. *)
Theorem generate_graphs_duplicate_dates (up : UploadFile) (w : World)
    (data : DataFrame) (frame : Frame (label * Z)) (pie : bytes)
    (i j : nat) (t : Z) :
  endswith (filename up) ".csv" = true →
  read_csv L (file up) = inr data →
  issubset required_columns (columns data) = true →
  index_by_date L data = inr frame →
  plot_pie L (tipo_alimento_totales frame) = Some pie →
  i ≠ j → index frame !! i = Some (Ts t) → index frame !! j = Some (Ts t) →
  generate_graphs L up w
  = (inl (Unhandled DuplicateLabelsError),
     write_file pie_path pie (record (EvReadCsv (file up)) w))
  ∧ status_of (Unhandled DuplicateLabelsError) = 500
  ∧ ¬ is_client_error (Unhandled DuplicateLabelsError).
Proof.
  intros Hext Hread Hcols Hframe Hpie Hij Hi Hj.
  split; [| split; [reflexivity | unfold is_client_error; simpl; lia]].
  assert (asfreq fill_row frame = inl DuplicateLabelsError) as Hout.
  { apply (asfreq_duplicates fill_row frame t).
    - by apply list_elem_of_lookup_2 in Hi.
    - intros Hnd. apply Hij. by apply (NoDup_lookup _ _ _ _ Hnd Hi Hj). }
  rewrite (generate_graphs_validated L up w data) by done.
  step_by @bind_inr Hframe. step_by @bind_inr Hpie. step_by @bind_inl Hout. reflexivity.
Qed.

(** C4: when both forecasting calls succeed on a daily series, the series
    has a last observed date, and each forecast has exactly 30 entries, the
    k-th of them (from 0) dated k + 1 days after that date. *)
Theorem forecasts_thirty_days (daily : Series) (sarima holt : Frame float) :
  sarima_forecast L daily = inr sarima →
  holt_forecast L daily = inr holt →
  ∃ t, last_index daily = Some t
       ∧ length sarima = 30%nat ∧ length holt = 30%nat
       ∧ ∀ k, (k < 30)%nat →
           index sarima !! k = Some (Ts (t + (Z.of_nat k + 1) * day_ns))
           ∧ index holt !! k = Some (Ts (t + (Z.of_nat k + 1) * day_ns)).
Proof.
  unfold sarima_forecast, holt_forecast.
  destruct (SARIMAX_fit L daily) as [p1|]; [| discriminate].
  destruct (ExponentialSmoothing_fit L daily) as [p2|]; [| discriminate].
  intros (t & Ht & Hlen1 & Hidx1)%forecast_inr (t' & Ht' & Hlen2 & Hidx2)%forecast_inr.
  assert (t' = t) as -> by congruence.
  exists t. split; [done | split; [done | split; [done|]]].
  intros k Hk. split; [apply Hidx1 | apply Hidx2]; done.
Qed.

End Claims.

(** ** Download *)

(** C5: a name whose path under the output directory holds no file is
    answered with 404; and after a generation that returned a response, the
    run has written the three chart files (and nothing else), and the
    download of each chart's name returns exactly the bytes written. *)
Theorem download_graph_contract :
  (∀ (name : string) (w : World),
     files w !! path_join GRAPH_PATH name = None →
     download_graph name w = (inl (HTTPException 404 DetailNotFound), w))
  ∧ (∀ (float : Type) (L : Libs float) (up : UploadFile) (w w' : World) (resp : Response),
       generate_graphs L up w = (inr resp, w') →
       ∃ pie line pred,
         log w' = EvSavefig pred_path pred :: EvSavefig line_path line
                  :: EvSavefig pie_path pie :: EvReadCsv (file up) :: log w
         ∧ download_graph "grafica_pastel.png" w' = (inr pie, w')
         ∧ download_graph "grafica_linea.png" w' = (inr line, w')
         ∧ download_graph "grafica_predicciones.png" w' = (inr pred, w')).
Proof.
  split.
  - intros name w Hnone. unfold download_graph. rewrite Hnone. reflexivity.
  - intros float L up w w' resp Hrun.
    apply generate_graphs_inr in Hrun
      as (data & frame & pie & out & line & sarima & holt & pred & _ & _ & _ & _ & _ & _ & _ & _ & _ & _ & ->).
    destruct chart_paths_distinct as (Hpl & Hpp & Hlp).
    exists pie, line, pred. split; [reflexivity|].
    unfold download_graph.
    fold pie_path line_path pred_path. simpl.
    rewrite lookup_insert_eq.
    rewrite (lookup_insert_ne _ pred_path pie_path), (lookup_insert_ne _ line_path pie_path) by done.
    rewrite (lookup_insert_ne _ pred_path line_path) by done.
    rewrite !lookup_insert_eq. done.
Qed.

(** ** Examples *)

(** C7: the rows (2024-01-01, fruit, 100) and (2024-01-03, fruit, 50) give
    the three-day daily series 100, 0, 50 and the category totals
    fruit: 150. *)
Theorem fruit_example :
  ∃ frame out,
    index_by_date Demo.libs Demo.fruit_data = inr frame
    ∧ asfreq fill_row frame = inr out
    ∧ index (daily_consumption out) = [Ts (Demo.jan 1); Ts (Demo.jan 2); Ts (Demo.jan 3)]
    ∧ values (daily_consumption out) = [100; 0; 50]
    ∧ tipo_alimento_totales frame = {[ LStr "fruit" := 150 ]}.
Proof.
  exists Demo.fruit_frame, Demo.fruit_daily.
  split; [by vm_compute|]. split; [by vm_compute|].
  split; [by vm_compute|]. split; [by vm_compute|].
  by vm_compute.
Qed.

Lemma fruit_upload_rows :
  read_csv Demo.libs (file Demo.upload_fruit) = inr Demo.fruit_data.
Proof. by vm_compute. Qed.

(** A row whose time of day is off the daily grid of the earliest row, and a
    row without a date, are dropped by the re-indexing. *)
Lemma asfreq_drops_rows_off_the_grid :
  asfreq fill_row
    [ (Ts (Demo.jan 1), (LStr "fruit", 100));
      (Ts (Demo.jan 2 + 12 * 3600 * 1000000000), (LStr "fruit", 50));
      (NaT, (LStr "bread", 7)) ]
  = inr [ (Ts (Demo.jan 1), (LStr "fruit", 100)); (Ts (Demo.jan 2), fill_row) ].
Proof. by vm_compute. Qed.

(** An index of missing dates only has no range to re-index on. *)
Lemma asfreq_all_NaT :
  asfreq fill_row [ (NaT, (LStr "fruit", 100)) ] = inl NaTRangeError.
Proof. reflexivity. Qed.

(** ** The theorems at concrete uploads *)

Lemma generate_graphs_rejects_extension_witness :
  generate_graphs Demo.libs Demo.upload_txt Demo.empty_world
  = (inl (HTTPException 400 DetailNotCsv), Demo.empty_world)
  ∧ is_client_error (HTTPException 400 DetailNotCsv).
Proof.
  apply (generate_graphs_rejects_extension Demo.libs Demo.upload_txt Demo.empty_world).
  vm_compute. reflexivity.
Defined.

Lemma generate_graphs_missing_columns_witness :
  ∃ e, generate_graphs Demo.libs Demo.upload_no_fecha Demo.empty_world
       = (inl e, record (EvReadCsv (file Demo.upload_no_fecha)) Demo.empty_world)
       ∧ is_client_error e
       ∧ names_listed e = required_columns
       ∧ missing_columns (Demo.data_of Demo.upload_no_fecha) ⊆ names_listed e.
Proof.
  apply (generate_graphs_missing_columns Demo.libs Demo.upload_no_fecha Demo.empty_world).
  - vm_compute. reflexivity.
  - vm_compute. reflexivity.
  - apply issubset_false_missing. vm_compute. reflexivity.
Defined.

(** The message lists the three required columns although only [Fecha] is
    missing: it does not name the set of missing columns. *)
Lemma missing_fecha_lists_all_columns :
  endswith (filename Demo.upload_no_fecha) ".csv" = true
  ∧ read_csv Demo.libs (file Demo.upload_no_fecha) = inr (Demo.data_of Demo.upload_no_fecha)
  ∧ missing_columns (Demo.data_of Demo.upload_no_fecha) = {[ "Fecha" ]}
  ∧ ∃ e w', generate_graphs Demo.libs Demo.upload_no_fecha Demo.empty_world = (inl e, w')
            ∧ names_listed e = required_columns
            ∧ names_listed e ≠ missing_columns (Demo.data_of Demo.upload_no_fecha).
Proof.
  split; [by vm_compute|]. split; [by vm_compute|].
  assert (missing_columns (Demo.data_of Demo.upload_no_fecha) = {[ "Fecha" ]}) as Hmiss
    by (by vm_compute).
  split; [done|].
  eexists. eexists. split; [vm_compute; reflexivity|]. split; [reflexivity|].
  rewrite Hmiss. simpl. intros Heq.
  assert ("Tipo de Alimento" ∈ ({[ "Fecha" ]} : gset string)) as Hin.
  { rewrite <- Heq. unfold required_columns. set_solver. }
  apply elem_of_singleton in Hin. discriminate.
Qed.

Lemma generate_graphs_unparseable_date_witness :
  generate_graphs Demo.libs Demo.upload_bad_date Demo.empty_world
  = (inl (Unhandled DateParseError),
     record (EvReadCsv (file Demo.upload_bad_date)) Demo.empty_world).
Proof.
  apply (generate_graphs_unparseable_date Demo.libs Demo.upload_bad_date Demo.empty_world
           (Demo.data_of Demo.upload_bad_date) "2024-13-01").
  - vm_compute. reflexivity.
  - vm_compute. reflexivity.
  - vm_compute. reflexivity.
  - apply list_elem_of_In. vm_compute. right. left. reflexivity.
  - vm_compute. reflexivity.
Defined.

Lemma asfreq_daily_series_witness :
  ∃ out days,
    asfreq fill_row Demo.fruit_frame = inr out
    ∧ index (daily_consumption out) = Ts <$> days
    ∧ StronglySorted Z.lt days
    ∧ (∀ t, t ∈ days ↔ is_date t ∧ Demo.jan 1 ≤ t ≤ Demo.jan 3)
    ∧ (∀ t l q, (Ts t, (l, q)) ∈ Demo.fruit_frame → (Ts t, q) ∈ daily_consumption out)
    ∧ (∀ t, t ∈ days → Ts t ∉ index Demo.fruit_frame → (Ts t, 0) ∈ daily_consumption out)
    ∧ asfreq fill_row out = inr out
    ∧ asfreq 0 (daily_consumption out) = inr (daily_consumption out).
Proof.
  apply (asfreq_daily_series Demo.fruit_frame (Demo.jan 1) (Demo.jan 3)).
  - intros i Hi. apply list_elem_of_In in Hi. simpl in Hi.
    destruct Hi as [<-|[<-|[]]]; eexists; (split; [reflexivity | vm_compute; reflexivity]).
  - refine (bool_decide_unpack _ _). vm_compute. exact I.
  - apply list_elem_of_In. simpl. left. reflexivity.
  - intros t Hi. apply list_elem_of_In in Hi. simpl in Hi.
    destruct Hi as [[= <-]|[[= <-]|[]]]; vm_compute; discriminate.
  - apply list_elem_of_In. simpl. right. left. reflexivity.
  - intros t Hi. apply list_elem_of_In in Hi. simpl in Hi.
    destruct Hi as [[= <-]|[[= <-]|[]]]; vm_compute; discriminate.
Defined.

(** Two rows with the same date: the upload is validated, and re-indexing
    raises instead of producing a daily series. *)
Lemma duplicate_dates_not_reindexed :
  endswith (filename Demo.upload_duplicate) ".csv" = true
  ∧ read_csv Demo.libs (file Demo.upload_duplicate) = inr (Demo.data_of Demo.upload_duplicate)
  ∧ issubset required_columns (columns (Demo.data_of Demo.upload_duplicate)) = true
  ∧ index_by_date Demo.libs (Demo.data_of Demo.upload_duplicate)
    = inr [ (Ts (Demo.jan 1), (LStr "fruit", 100)); (Ts (Demo.jan 1), (LStr "bread", 50)) ]
  ∧ asfreq fill_row [ (Ts (Demo.jan 1), (LStr "fruit", 100)); (Ts (Demo.jan 1), (LStr "bread", 50)) ]
    = inl DuplicateLabelsError.
Proof. repeat split; by vm_compute. Qed.

Lemma category_totals_conserve_mass_witness :
  totals_sum (tipo_alimento_totales Demo.fruit_frame)
  = Int64.sum (values (daily_consumption Demo.fruit_daily)).
Proof.
  apply (category_totals_conserve_mass Demo.fruit_frame Demo.fruit_daily).
  - vm_compute. reflexivity.
  - intros i l q Hin. apply list_elem_of_In in Hin. simpl in Hin.
    destruct Hin as [[= <- <- <-]|[[= <- <- <-]|[]]];
      (split; [discriminate | eexists; split; [reflexivity | vm_compute; reflexivity]]).
Defined.

(** A row without a category is left out of the category totals and kept in
    the daily series: generation returns a response, the totals add up to
    50 and the daily series to 150. *)
Lemma unlabelled_row_breaks_conservation :
  ∃ resp w' frame out,
    generate_graphs Demo.libs Demo.upload_unlabelled Demo.empty_world = (inr resp, w')
    ∧ index_by_date Demo.libs (Demo.data_of Demo.upload_unlabelled) = inr frame
    ∧ values frame = [ (LNaN, 100); (LStr "fruit", 50) ]
    ∧ asfreq fill_row frame = inr out
    ∧ totals_sum (tipo_alimento_totales frame) = 50
    ∧ Int64.sum (values (daily_consumption out)) = 150.
Proof.
  do 4 eexists. split; [vm_compute; reflexivity|].
  split; [vm_compute; reflexivity|]. split; [vm_compute; reflexivity|].
  split; [vm_compute; reflexivity|]. split; vm_compute; reflexivity.
Qed.

Lemma forecasts_thirty_days_witness :
  ∃ t, last_index Demo.fortnight_daily = Some t
       ∧ length Demo.fortnight_forecast = 30%nat
       ∧ length Demo.fortnight_forecast = 30%nat
       ∧ ∀ k, (k < 30)%nat →
           index Demo.fortnight_forecast !! k = Some (Ts (t + (Z.of_nat k + 1) * day_ns))
           ∧ index Demo.fortnight_forecast !! k = Some (Ts (t + (Z.of_nat k + 1) * day_ns)).
Proof.
  apply (forecasts_thirty_days Demo.libs Demo.fortnight_daily).
  - vm_compute. reflexivity.
  - vm_compute. reflexivity.
Defined.

Lemma download_graph_contract_witness :
  download_graph "otra.png" Demo.empty_world
  = (inl (HTTPException 404 DetailNotFound), Demo.empty_world)
  ∧ ∃ pie line pred,
      log (Demo.world_after Demo.upload_fortnight)
      = EvSavefig pred_path pred :: EvSavefig line_path line
        :: EvSavefig pie_path pie :: EvReadCsv (file Demo.upload_fortnight)
        :: log Demo.empty_world
      ∧ download_graph "grafica_pastel.png" (Demo.world_after Demo.upload_fortnight)
        = (inr pie, Demo.world_after Demo.upload_fortnight)
      ∧ download_graph "grafica_linea.png" (Demo.world_after Demo.upload_fortnight)
        = (inr line, Demo.world_after Demo.upload_fortnight)
      ∧ download_graph "grafica_predicciones.png" (Demo.world_after Demo.upload_fortnight)
        = (inr pred, Demo.world_after Demo.upload_fortnight).
Proof.
  split.
  - apply (proj1 download_graph_contract). vm_compute. reflexivity.
  - apply (proj2 download_graph_contract Z Demo.libs Demo.upload_fortnight Demo.empty_world
             (Demo.world_after Demo.upload_fortnight)
             (mkResponse pie_path line_path pred_path)).
    vm_compute. reflexivity.
Defined.

Lemma forecast_failure_keeps_charts_witness :
  ∃ f w', generate_graphs Demo.libs Demo.upload_fruit Demo.empty_world = (inl (Unhandled f), w')
          ∧ files w' !! pie_path = Some (Demo.png Byte.x01)
          ∧ files w' !! line_path = Some (Demo.png Byte.x02)
          ∧ files w' !! pred_path = files Demo.empty_world !! pred_path.
Proof.
  apply (forecast_failure_keeps_charts Demo.libs Demo.upload_fruit Demo.empty_world
           (Demo.data_of Demo.upload_fruit) Demo.fruit_frame Demo.fruit_daily).
  - vm_compute. reflexivity.
  - vm_compute. reflexivity.
  - vm_compute. reflexivity.
  - vm_compute. reflexivity.
  - vm_compute. reflexivity.
  - vm_compute. reflexivity.
  - vm_compute. reflexivity.
  - right. exists (FitError "ExponentialSmoothing"). vm_compute. reflexivity.
Defined.

Lemma generate_graphs_duplicate_dates_witness :
  generate_graphs Demo.libs Demo.upload_duplicate Demo.empty_world
  = (inl (Unhandled DuplicateLabelsError),
     write_file pie_path (Demo.png Byte.x01)
       (record (EvReadCsv (file Demo.upload_duplicate)) Demo.empty_world))
  ∧ status_of (Unhandled DuplicateLabelsError) = 500
  ∧ ¬ is_client_error (Unhandled DuplicateLabelsError).
Proof.
  apply (generate_graphs_duplicate_dates Demo.libs Demo.upload_duplicate Demo.empty_world
           (Demo.data_of Demo.upload_duplicate)
           [ (Ts (Demo.jan 1), (LStr "fruit", 100)); (Ts (Demo.jan 1), (LStr "bread", 50)) ]
           (Demo.png Byte.x01) 0%nat 1%nat (Demo.jan 1)).
  - vm_compute. reflexivity.
  - vm_compute. reflexivity.
  - vm_compute. reflexivity.
  - vm_compute. reflexivity.
  - vm_compute. reflexivity.
  - lia.
  - reflexivity.
  - reflexivity.
Defined.

(** Rows in descending date order, no date repeated: the upload is
    validated, re-indexing returns the fourteen days in ascending order, and
    generation returns a response. *)
Lemma descending_dates_are_reindexed :
  ∃ frame out resp w',
    read_csv Demo.libs (file Demo.upload_descending) = inr (Demo.data_of Demo.upload_descending)
    ∧ issubset required_columns (columns (Demo.data_of Demo.upload_descending)) = true
    ∧ index_by_date Demo.libs (Demo.data_of Demo.upload_descending) = inr frame
    ∧ index frame = [Ts (Demo.jan 14); Ts (Demo.jan 1)]
    ∧ asfreq fill_row frame = inr out
    ∧ index out = (λ d, Ts (Demo.jan d)) <$> seqZ 1 14
    ∧ generate_graphs Demo.libs Demo.upload_descending Demo.empty_world = (inr resp, w').
Proof.
  do 4 eexists. split; [vm_compute; reflexivity|].
  split; [vm_compute; reflexivity|]. split; [vm_compute; reflexivity|].
  split; [vm_compute; reflexivity|]. split; [vm_compute; reflexivity|].
  split; vm_compute; reflexivity.
Qed.

(** * Further properties *)

(** ** Every run of the generation handler *)

Section Runs.

Context {float : Type} (L : Libs float).

(** Whatever the upload and the libraries, a run ends in one of the cases
    of [run_of]. *)
Lemma generate_graphs_run (up : UploadFile) (w w' : World) (r : exn + Response) :
  generate_graphs L up w = (r, w') → run_of L up w r w'.
Proof.
  unfold generate_graphs.
  destruct (endswith _ _) eqn:Hext; simpl; [| intros [= <- <-]; by constructor].
  unfold bind at 1. unfold try_read_csv.
  destruct (read_csv L _) as [e|data] eqn:Hread; [intros [= <- <-]; by econstructor|].
  destruct (issubset _ _) eqn:Hcols; simpl; [| intros [= <- <-]; by econstructor].
  unfold bind at 1.
  destruct (index_by_date L data) as [f|frame]; simpl;
    [intros [= <- <-]; by apply (RunUnhandled L up w data f AtRead)|].
  unfold bind at 1.
  destruct (plot_pie L _) as [pie|]; simpl;
    [| intros [= <- <-]; by apply (RunUnhandled L up w data _ AtRead)].
  unfold bind at 1.
  destruct (asfreq fill_row frame) as [f|out]; simpl;
    [intros [= <- <-]; by apply (RunUnhandled L up w data f (AtPie pie))|].
  unfold bind at 1.
  destruct (plot_line L _) as [line|]; simpl;
    [| intros [= <- <-]; by apply (RunUnhandled L up w data _ (AtPie pie))].
  unfold bind at 1.
  destruct (sarima_forecast L _) as [f|sarima]; simpl;
    [intros [= <- <-]; by apply (RunUnhandled L up w data f (AtLine pie line))|].
  unfold bind at 1.
  destruct (holt_forecast L _) as [f|holt]; simpl;
    [intros [= <- <-]; by apply (RunUnhandled L up w data f (AtLine pie line))|].
  unfold bind at 1.
  destruct (plot_pred L _ _ _) as [pred|]; simpl;
    [| intros [= <- <-]; by apply (RunUnhandled L up w data _ (AtLine pie line))].
  intros [= <- <-]. by apply (RunResponse L up w data pie line pred).
Qed.

(** The files a run leaves differ from those it found at the three chart
    paths at most. *)
Lemma run_of_files (up : UploadFile) (w w' : World) (r : exn + Response) (p : string) :
  run_of L up w r w' →
  p ≠ pie_path → p ≠ line_path → p ≠ pred_path →
  files w' !! p = files w !! p.
Proof.
  intros Hrun Hpie Hline Hpred.
  destruct Hrun as [| | |data f pr|]; try done; [destruct pr|]; simpl;
    rewrite ?lookup_insert_ne by done; done.
Qed.

End Runs.

Section RunProperties.

Context {float : Type} (L : Libs float).

(** X1: when the name ends in [.csv] and reading the content raises, the
    answer is the client error 400 carrying the reader's message; the read is
    logged and no file is written. *)
Theorem generate_graphs_read_error (up : UploadFile) (w : World) (e : string) :
  endswith (filename up) ".csv" = true →
  read_csv L (file up) = inl e →
  generate_graphs L up w
  = (inl (HTTPException 400 (DetailReadError e)), record (EvReadCsv (file up)) w).
Proof.
  intros Hext Hread. unfold generate_graphs. rewrite Hext. simpl.
  unfold bind, try_read_csv. rewrite Hread. reflexivity.
Qed.


(** X3: the charts are written in the order pie, line, prediction, each
    only after the ones before it, and the request returns a response
    exactly when all three have been written: a run that fails leaves the
    world untouched, or after the read, the pie chart or the line chart. *)
Theorem generate_graphs_writes_in_order (up : UploadFile) (w w' : World)
    (r : exn + Response) :
  generate_graphs L up w = (r, w') →
  (∃ e, r = inl e ∧ (w' = w ∨ ∃ p, w' = world_at up w p))
  ∨ (∃ pie line pred,
       r = inr {| pie_chart := pie_path; line_chart := line_path;
                  prediction_chart := pred_path |}
       ∧ w' = write_file pred_path pred (world_at up w (AtLine pie line))).
Proof.
  intros Hrun%generate_graphs_run.
  destruct Hrun as [| e | data | data f p | data pie line pred].
  - left. eexists. split; [done | by left].
  - left. eexists. split; [done | right; by exists AtRead].
  - left. eexists. split; [done | right; by exists AtRead].
  - left. eexists. split; [done | right; by exists p].
  - right. by exists pie, line, pred.
Qed.

(** X4: a request that fails is answered with 400 or 500, and one answered
    with a client error has written no file. *)
Theorem generate_graphs_client_error_writes_nothing (up : UploadFile)
    (w w' : World) (e : exn) :
  generate_graphs L up w = (inl e, w') →
  (status_of e = 400 ∨ status_of e = 500)
  ∧ (is_client_error e → files w' = files w).
Proof.
  intros Hrun%generate_graphs_run. unfold is_client_error.
  inversion Hrun; subst; simpl; (split; [auto | try done]).
  lia.
Qed.

(** X5: the request fails on the extension check exactly when the upload's
    name is not some text followed by [.csv]. *)
Theorem generate_graphs_not_csv_iff (up : UploadFile) (w : World) :
  (generate_graphs L up w).1 = inl (HTTPException 400 DetailNotCsv)
  ↔ ¬ ∃ p, filename up = p +:+ ".csv".
Proof.
  rewrite <- endswith_spec. split.
  - destruct (generate_graphs L up w) as [r w'] eqn:Hrun. simpl. intros ->.
    apply generate_graphs_run in Hrun. inversion Hrun; subst. congruence.
  - intros Hext%not_true_is_false. unfold generate_graphs. by rewrite Hext.
Qed.

(** X6: a request that fails, at whatever step, leaves the prediction chart
    of an earlier request in place: its download answers as it would have
    before the failed request. *)
Theorem failed_generation_keeps_prediction_chart (up : UploadFile)
    (w w' : World) (e : exn) :
  generate_graphs L up w = (inl e, w') →
  download_graph "grafica_predicciones.png" w'
  = ((download_graph "grafica_predicciones.png" w).1, w').
Proof.
  intros Hrun%generate_graphs_run.
  destruct chart_paths_distinct as (Hpl & Hpp & Hlp).
  assert (files w' !! pred_path = files w !! pred_path) as Hsame.
  { inversion Hrun as [| | |data f p|]; subst; try done.
    destruct p; simpl; rewrite ?lookup_insert_ne by done; done. }
  unfold download_graph. fold pred_path. rewrite Hsame.
  by destruct (files w !! pred_path).
Qed.

(** X7: the paths a response returns are not names the download handler
    resolves to the charts: joined to the output directory again they name
    other paths, which the generation has not written, so that each is
    answered with 404 unless a file was there before. *)
Theorem returned_paths_are_not_download_names (up : UploadFile) (w w' : World)
    (resp : Response) (p : string) :
  generate_graphs L up w = (inr resp, w') →
  p ∈ [pie_chart resp; line_chart resp; prediction_chart resp] →
  files w !! path_join GRAPH_PATH p = None →
  download_graph p w' = (inl (HTTPException 404 DetailNotFound), w').
Proof.
  intros Hrun Hp Hnone.
  pose proof (generate_graphs_run L up w w' _ Hrun) as Hof.
  assert (resp = {| pie_chart := pie_path; line_chart := line_path;
                    prediction_chart := pred_path |}) as ->
    by (inversion Hof; done).
  assert (path_join GRAPH_PATH p ≠ pie_path ∧ path_join GRAPH_PATH p ≠ line_path
          ∧ path_join GRAPH_PATH p ≠ pred_path) as (H1 & H2 & H3).
  { simpl in Hp. apply list_elem_of_In in Hp. simpl in Hp.
    destruct Hp as [<-|[<-|[<-|[]]]]; by vm_compute. }
  unfold download_graph.
  rewrite (run_of_files L up w w' _ _ Hof H1 H2 H3), Hnone. reflexivity.
Qed.

End RunProperties.

(** X8: a name that starts with [/] is not looked up under the output
    directory: the join returns the name itself, and the file at that
    absolute path is sent. *)
Theorem download_graph_absolute_name (name : string) (w : World) (content : bytes) :
  startswith name "/" = true →
  files w !! name = Some content →
  download_graph name w = (inr content, w).
Proof.
  intros Habs Hfile. unfold download_graph, path_join. rewrite Habs, Hfile. reflexivity.
Qed.

(** ** More on the series builder *)

Section Reindexing.

Context {A : Type} (fill : A).
Implicit Types (obj out : Frame A).

(** X9: re-indexing raises on exactly two kinds of frame: one with rows but
    no date at all, and one with a date in which some label occurs twice. *)
Theorem asfreq_inl obj (f : failure) :
  asfreq fill obj = inl f
  ↔ obj ≠ []
    ∧ ((valid (index obj) = [] ∧ f = NaTRangeError)
       ∨ (valid (index obj) ≠ [] ∧ ¬ NoDup (index obj) ∧ f = DuplicateLabelsError)).
Proof.
  unfold asfreq, reindex, index_min, index_max. destruct obj as [|r rest].
  - split; [done | intros [? _]; done].
  - destruct (valid (index (r :: rest))) as [|t ts] eqn:Hvalid.
    + split; [intros [= <-]; split; [done | left; done] |].
      intros [_ [[_ ->]|[? _]]]; done.
    + destruct (decide (NoDup (index (r :: rest)))) as [Hnd|Hnd].
      * split; [done | intros [_ [[? _]|(_ & ? & _)]]; done].
      * split; [intros [= <-]; split; [done | right; done] |].
        intros [_ [[? _]|(_ & _ & ->)]]; done.
Qed.

Lemma index_min_Permutation (idx idx' : list Timestamp) :
  idx ≡ₚ idx' → index_min idx = index_min idx'.
Proof.
  intros Hp. destruct (index_min idx) as [lo|] eqn:Hlo.
  - symmetry. apply index_min_Some. apply index_min_Some in Hlo as [Hin Hmin].
    split; [by rewrite <- Hp | intros t Ht; apply Hmin; by rewrite Hp].
  - destruct (index_min idx') as [lo|] eqn:Hlo'; [| done].
    apply index_min_Some in Hlo' as [Hin Hmin].
    assert (index_min idx = Some lo) as Hx; [| congruence].
    apply index_min_Some. split; [by rewrite Hp | intros t Ht; apply Hmin; by rewrite <- Hp].
Qed.

Lemma index_max_Permutation (idx idx' : list Timestamp) :
  idx ≡ₚ idx' → index_max idx = index_max idx'.
Proof.
  intros Hp. destruct (index_max idx) as [hi|] eqn:Hhi.
  - symmetry. apply index_max_Some. apply index_max_Some in Hhi as [Hin Hmax].
    split; [by rewrite <- Hp | intros t Ht; apply Hmax; by rewrite Hp].
  - destruct (index_max idx') as [hi|] eqn:Hhi'; [| done].
    apply index_max_Some in Hhi' as [Hin Hmax].
    assert (index_max idx = Some hi) as Hx; [| congruence].
    apply index_max_Some. split; [by rewrite Hp | intros t Ht; apply Hmax; by rewrite <- Hp].
Qed.

Lemma loc_Permutation obj obj' (t : Timestamp) :
  NoDup (index obj) → obj ≡ₚ obj' → loc t obj = loc t obj'.
Proof.
  intros Hnd Hp.
  assert (NoDup (index obj')) as Hnd' by (unfold index; by rewrite <- Hp).
  destruct (loc t obj) as [a|] eqn:Hloc.
  - symmetry. apply loc_elem_of; [done|]. rewrite <- Hp. by apply loc_Some_elem_of.
  - symmetry. apply loc_None. apply loc_None in Hloc. unfold index. by rewrite <- Hp.
Qed.

(** X10: the order of the rows does not matter to the re-indexing: two
    frames with the same rows in any order are re-indexed to the same frame,
    or both raise the same error. *)
Theorem asfreq_Permutation obj obj' :
  obj ≡ₚ obj' → asfreq fill obj = asfreq fill obj'.
Proof.
  intros Hp.
  assert (index obj ≡ₚ index obj') as Hidx by (unfold index; by rewrite Hp).
  unfold asfreq.
  destruct obj as [|r rest]; [by apply Permutation_nil in Hp as ->|].
  destruct obj' as [|r' rest']; [symmetry in Hp; by apply Permutation_nil in Hp|].
  rewrite (index_min_Permutation _ _ Hidx), (index_max_Permutation _ _ Hidx).
  destruct (index_min _) as [lo|]; [| done].
  destruct (index_max _) as [hi|]; [| done].
  unfold reindex.
  destruct (decide (NoDup (index (r :: rest)))) as [Hnd|Hnd].
  - rewrite decide_True by (by rewrite <- Hidx).
    f_equal. unfold reindexed. apply list_fmap_ext. intros _ t _.
    by rewrite (loc_Permutation _ _ (Ts t) Hnd Hp).
  - rewrite decide_False by (by rewrite <- Hidx). done.
Qed.

(** X11: the shape of a re-indexed frame, whatever the times of day of the
    rows: it starts at the earliest timestamp and goes on in steps of one
    day exactly, up to the last step not after the latest timestamp. *)
Theorem asfreq_index_lookup obj out (lo hi : Z) :
  asfreq fill obj = inr out →
  index_min (index obj) = Some lo →
  index_max (index obj) = Some hi →
  length out = Z.to_nat ((hi - lo) `div` day_ns + 1)
  ∧ ∀ k : nat, (k < length out)%nat →
      index out !! k = Some (Ts (lo + Z.of_nat k * day_ns)).
Proof.
  intros Hout Hlo Hhi.
  apply asfreq_inr in Hout as [[-> _]|(_ & lo' & hi' & Hlo' & Hhi' & ->)].
  { apply index_min_Some in Hlo as [Hin _]. by apply elem_of_nil in Hin. }
  assert (lo' = lo) as -> by congruence. assert (hi' = hi) as -> by congruence.
  unfold reindexed, date_range. rewrite !length_fmap, length_seqZ. split; [done|].
  intros k Hk. unfold index. rewrite <- !list_fmap_compose, list_lookup_fmap.
  rewrite lookup_seqZ_lt by lia. done.
Qed.

End Reindexing.

(** ** Category totals, key by key *)

Lemma quantities_of_cons (k : label) (kq : label * Z) (kqs : list (label * Z)) :
  quantities_of k (kq :: kqs)
  = if decide (kq.1 = k) then kq.2 :: quantities_of k kqs else quantities_of k kqs.
Proof.
  unfold quantities_of. destruct (decide (kq.1 = k)) as [Heq|Hne].
  - by rewrite filter_cons_True.
  - by rewrite filter_cons_False.
Qed.

(** What the grouping has accumulated for a key after some more rows. *)
Lemma foldl_group_add_lookup (acc : gmap label Z) (kqs : list (label * Z)) (k : label) :
  k ≠ LNaN →
  foldl group_add acc kqs !! k
  = match quantities_of k kqs with
    | [] => acc !! k
    | qs => Some (foldl Int64.add (default 0 (acc !! k)) qs)
    end.
Proof.
  intros Hk. revert acc. induction kqs as [|[k' q] kqs IH]; intros acc; [done|].
  simpl. rewrite IH, quantities_of_cons. simpl.
  destruct (decide (k' = k)) as [->|Hne].
  - assert (group_add acc (k, q) = <[k := Int64.add (default 0 (acc !! k)) q]> acc) as ->.
    { unfold group_add. simpl. by destruct k. }
    rewrite lookup_insert_eq. simpl. by destruct (quantities_of k kqs).
  - assert (group_add acc (k', q) !! k = acc !! k) as ->; [| done].
    unfold group_add. simpl. destruct k'; [done | |]; by rewrite lookup_insert_ne.
Qed.

Lemma foldl_group_add_lookup_NaN (acc : gmap label Z) (kqs : list (label * Z)) :
  foldl group_add acc kqs !! LNaN = acc !! LNaN.
Proof.
  revert acc. induction kqs as [|[k' q] kqs IH]; intros acc; [done|].
  simpl. rewrite IH. unfold group_add. simpl.
  destruct k'; [done | |]; by rewrite lookup_insert_ne.
Qed.

(** X12: the totals have one entry per category that labels a row, the
    int64 sum of that category's quantities in row order; the rows without
    a category make no entry, and a category that labels no row has none. *)
Theorem groupby_sum_lookup (kqs : list (label * Z)) (k : label) :
  groupby_sum kqs !! k
  = if decide (k = LNaN ∨ quantities_of k kqs = []) then None
    else Some (Int64.sum (quantities_of k kqs)).
Proof.
  unfold groupby_sum. destruct (decide (k = LNaN)) as [->|Hk].
  - rewrite foldl_group_add_lookup_NaN, decide_True by (by left). done.
  - rewrite foldl_group_add_lookup by done. rewrite lookup_empty. simpl.
    destruct (quantities_of k kqs) as [|q qs] eqn:Hq.
    + rewrite decide_True by (by right). done.
    + rewrite decide_False; [done|]. intros [?|?]; done.
Qed.

Lemma Zsum_Permutation (l l' : list Z) : l ≡ₚ l' → Zsum l = Zsum l'.
Proof. unfold Zsum. induction 1; simpl; lia. Qed.

Lemma quantities_of_Permutation (k : label) (kqs kqs' : list (label * Z)) :
  kqs ≡ₚ kqs' → quantities_of k kqs ≡ₚ quantities_of k kqs'.
Proof. intros Hp. unfold quantities_of. by rewrite Hp. Qed.

(** X13: the category totals do not depend on the order of the rows, the
    wrap-around of int64 included. *)
Theorem groupby_sum_Permutation (kqs kqs' : list (label * Z)) :
  kqs ≡ₚ kqs' → groupby_sum kqs = groupby_sum kqs'.
Proof.
  intros Hp. apply map_eq. intros k. unfold groupby_sum.
  destruct (decide (k = LNaN)) as [->|Hk].
  { by rewrite !foldl_group_add_lookup_NaN. }
  rewrite !foldl_group_add_lookup by done. rewrite lookup_empty. simpl.
  pose proof (quantities_of_Permutation k _ _ Hp) as Hq.
  destruct (quantities_of k kqs) as [|q qs] eqn:H1,
           (quantities_of k kqs') as [|q' qs'] eqn:H2.
  - done.
  - by apply Permutation_nil in Hq.
  - symmetry in Hq. by apply Permutation_nil in Hq.
  - f_equal. change (Int64.sum (q :: qs) = Int64.sum (q' :: qs')).
    rewrite !Int64_sum_wrap. f_equal. by apply Zsum_Permutation.
Qed.

(** ** Conversion of the date column *)

Section Dates.

Context {float : Type} (L : Libs float).



End Dates.

(** ** From the upload's dates to the forecast's *)

Lemma last_date_range (lo hi : Z) :
  lo ≤ hi → (hi - lo) `mod` day_ns = 0 → last (date_range lo hi) = Some hi.
Proof.
  intros Hle Hmod. pose proof day_ns_pos as HD.
  assert (0 ≤ (hi - lo) `div` day_ns) as Hn by (apply Z.div_pos; lia).
  unfold date_range. rewrite last_lookup, length_fmap, length_seqZ, list_lookup_fmap.
  replace (pred (Z.to_nat ((hi - lo) `div` day_ns + 1)))
    with (Z.to_nat ((hi - lo) `div` day_ns)) by lia.
  rewrite lookup_seqZ_lt by lia. simpl. f_equal.
  pose proof (Z.div_mod (hi - lo) day_ns ltac:(lia)). lia.
Qed.

Section ForecastDates.

Context {float : Type} (L : Libs float).

(** X16: for rows with calendar dates, the forecasts of a run start the
    day after the latest date of the upload, wherever in the upload that
    row stands: the k-th entry (from 0) of both is dated k + 1 days after
    it. *)
Theorem forecasts_follow_latest_date (frame out : Frame (label * Z)) (hi : Z)
    (sarima holt : Frame float) :
  (∀ i, i ∈ index frame → ∃ t, i = Ts t ∧ is_date t) →
  index_max (index frame) = Some hi →
  asfreq fill_row frame = inr out →
  sarima_forecast L (daily_consumption out) = inr sarima →
  holt_forecast L (daily_consumption out) = inr holt →
  ∀ k, (k < 30)%nat →
    index sarima !! k = Some (Ts (hi + (Z.of_nat k + 1) * day_ns))
    ∧ index holt !! k = Some (Ts (hi + (Z.of_nat k + 1) * day_ns)).
Proof.
  intros Hdates Hhi Hout Hs Hh.
  assert (last_index (daily_consumption out) = Some hi) as Hlast.
  { apply asfreq_inr in Hout as [[-> _]|(_ & lo & hi' & Hlo & Hhi' & ->)].
    { apply index_max_Some in Hhi as [Hin _]. by apply elem_of_nil in Hin. }
    assert (hi' = hi) as -> by congruence.
    apply index_min_Some in Hlo as [Hlo Hmin]. apply index_max_Some in Hhi as [Hhi _].
    destruct (Hdates _ Hlo) as (? & [= <-] & Hlod).
    destruct (Hdates _ Hhi) as (? & [= <-] & Hhid).
    unfold last_index. rewrite index_daily_consumption, index_reindexed.
    rewrite fmap_last, last_date_range; [done | auto |].
    unfold is_date in *. pose proof day_ns_pos.
    rewrite Zminus_mod, Hlod, Hhid. done. }
  unfold sarima_forecast in Hs. unfold holt_forecast in Hh.
  destruct (SARIMAX_fit L _) as [p1|]; [| discriminate].
  destruct (ExponentialSmoothing_fit L _) as [p2|]; [| discriminate].
  apply forecast_inr in Hs as (t & Ht & _ & Hidx1).
  apply forecast_inr in Hh as (t' & Ht' & _ & Hidx2).
  assert (t = hi) as -> by congruence. assert (t' = hi) as -> by congruence.
  intros k Hk. split; [by apply Hidx1 | by apply Hidx2].
Qed.

End ForecastDates.

(** ** What a request does not depend on *)

Section Stateless.

Context {float : Type} (L : Libs float).






End Stateless.

(** X18: re-indexing rows with calendar dates adds rows of zero only: the
    int64 sum of the daily series is that of the quantities of all the rows
    of the upload, with or without a category. *)
Theorem asfreq_preserves_total (data out : Frame (label * Z)) :
  asfreq fill_row data = inr out →
  (∀ i, i ∈ index data → ∃ t, i = Ts t ∧ is_date t) →
  Int64.sum (values (daily_consumption out)) = Int64.sum (snd <$> values data).
Proof.
  intros Hout Hdates. rewrite !Int64_sum_wrap. f_equal.
  apply asfreq_inr in Hout as [[-> ->]|(Hnd & lo & hi & Hlo & Hhi & ->)]; [done|].
  apply index_min_Some in Hlo as [Hlo Hmin]. apply index_max_Some in Hhi as [Hhi Hmax].
  assert (is_date lo) as Hlod by (destruct (Hdates _ Hlo) as (? & [= <-] & ?); done).
  transitivity (Zsum ((λ r, r.2.2) <$> data)).
  2: { f_equal. unfold values. rewrite <- !list_fmap_compose. done. }
  rewrite <- (Zsum_reindex (date_range lo hi) data); [| apply NoDup_date_range | done |].
  { f_equal. unfold values, daily_consumption, reindexed.
    rewrite <- !list_fmap_compose. done. }
  intros i Hi. destruct (Hdates _ Hi) as (t & -> & Ht). exists t. split; [done|].
  apply elem_of_date_range_dates; auto.
Qed.

Lemma asfreq_preserves_total_witness :
  Int64.sum (values (daily_consumption Demo.fruit_daily))
  = Int64.sum (snd <$> values Demo.fruit_frame).
Proof.
  apply (asfreq_preserves_total Demo.fruit_frame Demo.fruit_daily).
  - vm_compute. reflexivity.
  - intros i Hi. apply list_elem_of_In in Hi. simpl in Hi.
    destruct Hi as [<-|[<-|[]]]; eexists; (split; [reflexivity | vm_compute; reflexivity]).
Defined.

(** ** The further properties at concrete uploads *)

Lemma generate_graphs_read_error_witness :
  generate_graphs Demo.libs Demo.upload_empty Demo.empty_world
  = (inl (HTTPException 400 (DetailReadError "No columns to parse from file")),
     record (EvReadCsv (file Demo.upload_empty)) Demo.empty_world).
Proof.
  apply (generate_graphs_read_error Demo.libs Demo.upload_empty Demo.empty_world).
  - vm_compute. reflexivity.
  - vm_compute. reflexivity.
Defined.


Lemma generate_graphs_writes_in_order_witness :
  (∃ e, Demo.fit_failure = inl e
        ∧ (Demo.world_after Demo.upload_fruit = Demo.empty_world
           ∨ ∃ p, Demo.world_after Demo.upload_fruit
                  = world_at Demo.upload_fruit Demo.empty_world p))
  ∨ (∃ pie line pred,
       Demo.fit_failure
       = inr {| pie_chart := pie_path; line_chart := line_path;
                prediction_chart := pred_path |}
       ∧ Demo.world_after Demo.upload_fruit
         = write_file pred_path pred
             (world_at Demo.upload_fruit Demo.empty_world (AtLine pie line))).
Proof.
  apply (generate_graphs_writes_in_order Demo.libs Demo.upload_fruit Demo.empty_world).
  vm_compute. reflexivity.
Defined.

Lemma generate_graphs_client_error_writes_nothing_witness :
  (status_of (HTTPException 400 (DetailColumns required_columns)) = 400
   ∨ status_of (HTTPException 400 (DetailColumns required_columns)) = 500)
  ∧ (is_client_error (HTTPException 400 (DetailColumns required_columns)) →
     files (Demo.world_after Demo.upload_no_fecha) = files Demo.empty_world).
Proof.
  apply (generate_graphs_client_error_writes_nothing Demo.libs Demo.upload_no_fecha
           Demo.empty_world).
  vm_compute. reflexivity.
Defined.

Lemma failed_generation_keeps_prediction_chart_witness :
  download_graph "grafica_predicciones.png"
    (generate_graphs Demo.libs Demo.upload_fruit
       (Demo.world_after Demo.upload_fortnight)).2
  = ((download_graph "grafica_predicciones.png"
        (Demo.world_after Demo.upload_fortnight)).1,
     (generate_graphs Demo.libs Demo.upload_fruit
        (Demo.world_after Demo.upload_fortnight)).2).
Proof.
  apply (failed_generation_keeps_prediction_chart Demo.libs Demo.upload_fruit
           (Demo.world_after Demo.upload_fortnight) _
           (Unhandled (FitError "ExponentialSmoothing"))).
  vm_compute. reflexivity.
Defined.

Lemma returned_paths_are_not_download_names_witness :
  download_graph pie_path (Demo.world_after Demo.upload_fortnight)
  = (inl (HTTPException 404 DetailNotFound), Demo.world_after Demo.upload_fortnight).
Proof.
  apply (returned_paths_are_not_download_names Demo.libs Demo.upload_fortnight
           Demo.empty_world (Demo.world_after Demo.upload_fortnight)
           (mkResponse pie_path line_path pred_path) pie_path).
  - vm_compute. reflexivity.
  - simpl. left.
  - vm_compute. reflexivity.
Defined.

Lemma download_graph_absolute_name_witness :
  download_graph "/etc/hostname" Demo.world_with_hostname
  = (inr [Byte.x68; Byte.x6f; Byte.x73; Byte.x74], Demo.world_with_hostname).
Proof.
  apply (download_graph_absolute_name "/etc/hostname" Demo.world_with_hostname).
  - vm_compute. reflexivity.
  - vm_compute. reflexivity.
Defined.

Lemma asfreq_Permutation_witness :
  asfreq fill_row Demo.descending_frame = asfreq fill_row (reverse Demo.descending_frame).
Proof.
  apply (asfreq_Permutation fill_row Demo.descending_frame (reverse Demo.descending_frame)).
  symmetry. apply reverse_Permutation.
Defined.

Lemma asfreq_index_lookup_witness :
  length Demo.fruit_daily = Z.to_nat ((Demo.jan 3 - Demo.jan 1) `div` day_ns + 1)
  ∧ ∀ k : nat, (k < length Demo.fruit_daily)%nat →
      index Demo.fruit_daily !! k = Some (Ts (Demo.jan 1 + Z.of_nat k * day_ns)).
Proof.
  apply (asfreq_index_lookup fill_row Demo.fruit_frame Demo.fruit_daily).
  - vm_compute. reflexivity.
  - vm_compute. reflexivity.
  - vm_compute. reflexivity.
Defined.

Lemma groupby_sum_Permutation_witness :
  groupby_sum (values Demo.descending_frame)
  = groupby_sum (reverse (values Demo.descending_frame)).
Proof.
  apply (groupby_sum_Permutation (values Demo.descending_frame)
           (reverse (values Demo.descending_frame))).
  symmetry. apply reverse_Permutation.
Defined.


Lemma forecasts_follow_latest_date_witness :
  index Demo.descending_forecast !! 0%nat
  = Some (Ts (Demo.jan 14 + (Z.of_nat 0 + 1) * day_ns))
  ∧ index Demo.descending_forecast !! 0%nat
    = Some (Ts (Demo.jan 14 + (Z.of_nat 0 + 1) * day_ns)).
Proof.
  apply (forecasts_follow_latest_date Demo.libs Demo.descending_frame
           (reindexed fill_row (date_range (Demo.jan 1) (Demo.jan 14)) Demo.descending_frame)
           (Demo.jan 14) Demo.descending_forecast Demo.descending_forecast).
  - intros i Hi. apply list_elem_of_In in Hi. simpl in Hi.
    destruct Hi as [<-|[<-|[]]]; eexists; (split; [reflexivity | vm_compute; reflexivity]).
  - vm_compute. reflexivity.
  - vm_compute. reflexivity.
  - vm_compute. reflexivity.
  - vm_compute. reflexivity.
  - lia.
Defined.
